(** * PyKMIP: the Pie/core object factory (kmip/pie/factory.py)

    A shallow embedding of [ObjectFactory] and of the objects it converts,
    with the properties of the converter, of the two nested-structure
    builders and of the [Certificate] construction contract. *)

From Stdlib Require Import ZArith.
From Stdlib.Strings Require Import Byte.
From stdpp Require Import base option list strings gmap fin_maps.

Set Warnings "-register-all".

Local Open Scope Z_scope.
Local Open Scope string_scope.

(** ** Python values *)

Module Py.

(** Members of the enumerations of [kmip.core.enums] that the factory and the
    certificate tests inspect.  Modelled from the spec: [kmip/core/enums.py]
    is not among the sources; only the members named by the factory
    ([CertificateType.X_509], [KeyFormatType.OPAQUE]), by the tests
    ([CryptographicUsageMask.ENCRYPT], [VERIFY], [ObjectType.CERTIFICATE]) and a
    few of their siblings are listed. *)
Inductive CertificateType := X_509 | PGP.

Inductive KeyFormatType :=
  | RAW | OPAQUE | PKCS_1 | PKCS_8 | TRANSPARENT_SYMMETRIC_KEY.

Inductive CryptographicUsageMask :=
  | SIGN | VERIFY | ENCRYPT | DECRYPT | WRAP_KEY | UNWRAP_KEY.

Inductive ObjectType :=
  | CERTIFICATE | SYMMETRIC_KEY | PUBLIC_KEY | PRIVATE_KEY | SPLIT_KEY
  | SECRET_DATA | OPAQUE_DATA.

Inductive CryptographicAlgorithm := DES | TRIPLE_DES | AES | RSA | DSA | ECDSA.

Inductive SecretDataType := PASSWORD | SEED.

Inductive OpaqueDataType := NONE.

Inductive SplitKeyMethod :=
  | XOR | POLYNOMIAL_SHARING_GF_2_16 | POLYNOMIAL_SHARING_PRIME_FIELD
  | POLYNOMIAL_SHARING_GF_2_8.

#[global] Instance CertificateType_eq_dec : EqDecision CertificateType.
Proof. solve_decision. Defined.
#[global] Instance KeyFormatType_eq_dec : EqDecision KeyFormatType.
Proof. solve_decision. Defined.
#[global] Instance CryptographicUsageMask_eq_dec :
  EqDecision CryptographicUsageMask.
Proof. solve_decision. Defined.

(** A member of any enumeration, as a dynamically typed value. *)
Inductive enum_member :=
  | ECertificateType (c : CertificateType)
  | EKeyFormatType (f : KeyFormatType)
  | ECryptographicUsageMask (m : CryptographicUsageMask)
  | EOther (enum_class : string) (code : Z).

(** Dynamically typed values: what an argument of a constructor or an entry
    of a [dict] may hold. *)
Inductive pyval :=
  | PyNone
  | PyBool (b : bool)
  | PyInt (z : Z)
  | PyStr (s : string)
  | PyBytes (b : list byte)
  | PyEnum (e : enum_member)
  | PyList (l : list pyval)
  | PyDict (d : gmap string pyval).

(** Exceptions the modelled code raises, with their message. *)
Inductive exn :=
  | TypeError (msg : string)
  | AttributeError (msg : string).

(** The outcome of a call that may raise. *)
Definition result (A : Type) : Type := exn + A.

Definition ret {A} (a : A) : result A := inr a.
Definition raise {A} (e : exn) : result A := inl e.
Definition bind {A B} (r : result A) (k : A -> result B) : result B :=
  match r with
  | inl e => inl e
  | inr a => k a
  end.

(** [str] of an enumeration member, as [format] prints it. *)
Definition str_KeyFormatType (f : KeyFormatType) : string :=
  "KeyFormatType." ++
  match f with
  | RAW => "RAW"
  | OPAQUE => "OPAQUE"
  | PKCS_1 => "PKCS_1"
  | PKCS_8 => "PKCS_8"
  | TRANSPARENT_SYMMETRIC_KEY => "TRANSPARENT_SYMMETRIC_KEY"
  end.

(** Reading [o.value] where [o] may be [None]. *)
Definition attr_value {A B} (get : A -> B) (o : option A) : result B :=
  match o with
  | Some a => ret (get a)
  | None => raise (AttributeError "'NoneType' object has no attribute 'value'")
  end.

End Py.

Import Py.

(** ** The core (protocol) object hierarchy

    Modelled from the spec: [kmip/core/objects.py], [kmip/core/secrets.py],
    [kmip/core/attributes.py] and [kmip/core/misc.py] are not among the
    sources.  The records below hold the attributes the factory reads and the
    keyword arguments it passes; a field the factory passes [None] for is an
    [option] (or a [pyval], for the fields that are only carried). *)

Module Core.

(** A primitive ([Enumeration], [Integer], [ByteString], and the attribute
    classes built on them): the factory reads its [.value]. *)
Module Primitive.
Record t (A : Type) := Build { value : A }.
Arguments Build {A} _.
Arguments value {A} _.
End Primitive.

Module CryptographicParameters.
Record t := Build {
  block_cipher_mode : pyval;
  padding_method : pyval;
  hashing_algorithm : pyval;
  key_role_type : pyval;
  digital_signature_algorithm : pyval;
  cryptographic_algorithm : pyval;
  random_iv : pyval;
  iv_length : pyval;
  tag_length : pyval;
  fixed_field_length : pyval;
  invocation_field_length : pyval;
  counter_length : pyval;
  initial_counter_value : pyval
}.
End CryptographicParameters.

(** [EncryptionKeyInformation] and [MACSignatureKeyInformation]: the factory
    reads the same two attributes of both. *)
Module KeyInformation.
Record t := Build {
  unique_identifier : pyval;
  cryptographic_parameters : CryptographicParameters.t
}.
End KeyInformation.

Module KeyWrappingData.
Record t := Build {
  wrapping_method : pyval;
  encryption_key_information : option KeyInformation.t;
  mac_signature_key_information : option KeyInformation.t;
  mac_signature : pyval;
  iv_counter_nonce : pyval;
  encoding_option : pyval
}.
End KeyWrappingData.

Module KeyValue.
Record t := Build { key_material : Primitive.t (list byte) }.
End KeyValue.

Module KeyBlock.
Record t := Build {
  key_format_type : Primitive.t KeyFormatType;
  key_compression_type : option pyval;
  key_value : KeyValue.t;
  cryptographic_algorithm : option (Primitive.t CryptographicAlgorithm);
  cryptographic_length : option (Primitive.t Z);
  key_wrapping_data : option KeyWrappingData.t
}.
End KeyBlock.

Module Certificate.
Record t := Build {
  certificate_type : Primitive.t CertificateType;
  certificate_value : Primitive.t (list byte)
}.
End Certificate.

Module SecretData.
Record t := Build {
  secret_data_type : Primitive.t SecretDataType;
  key_block : KeyBlock.t
}.
End SecretData.

Module OpaqueObject.
Record t := Build {
  opaque_data_type : Primitive.t OpaqueDataType;
  opaque_data_value : Primitive.t (list byte)
}.
End OpaqueObject.

Module SplitKey.
Record t := Build {
  split_key_parts : Z;
  key_part_identifier : Z;
  split_key_threshold : Z;
  split_key_method : SplitKeyMethod;
  prime_field_size : option Z;
  key_block : KeyBlock.t
}.
End SplitKey.

(** The seven classes of [kmip.core.secrets]; [SymmetricKey], [PublicKey] and
    [PrivateKey] are each built from a key block alone. *)
Inductive object :=
  | SymmetricKey (key_block : KeyBlock.t)
  | PublicKey (key_block : KeyBlock.t)
  | PrivateKey (key_block : KeyBlock.t)
  | Certificate_ (c : Certificate.t)
  | SecretData_ (s : SecretData.t)
  | OpaqueObject_ (o : OpaqueObject.t)
  | SplitKey_ (s : SplitKey.t).

(** Modelled from the spec: the constructor of [secrets.Certificate], called
    as [secrets.Certificate(certificate_type, certificate_value)]; a direct
    copy of type and value. *)
Definition Certificate_init (certificate_type : CertificateType)
    (certificate_value : list byte) : Certificate.t :=
  Certificate.Build (Primitive.Build certificate_type)
                    (Primitive.Build certificate_value).

(** The parameter names of the keyword constructors. *)
Definition CryptographicParameters_names : gset string :=
  {[ "block_cipher_mode"; "padding_method"; "hashing_algorithm";
     "key_role_type"; "digital_signature_algorithm";
     "cryptographic_algorithm"; "random_iv"; "iv_length"; "tag_length";
     "fixed_field_length"; "invocation_field_length"; "counter_length";
     "initial_counter_value" ]}.

Definition KeyInformation_names : gset string :=
  {[ "unique_identifier"; "cryptographic_parameters" ]}.

Definition KeyWrappingData_names : gset string :=
  {[ "wrapping_method"; "encryption_key_information";
     "mac_signature_key_information"; "mac_signature"; "iv_counter_nonce";
     "encoding_option" ]}.

(** A keyword argument: the entry of the expanded [dict], or the default
    [None] of the parameter. *)
Definition kwarg (d : gmap string pyval) (name : string) : pyval :=
  default PyNone (d !! name).

Definition unexpected_keyword : exn :=
  TypeError "__init__() got an unexpected keyword argument".

(** Modelled from the spec: the keyword constructor of
    [CryptographicParameters], called with the entries of [d]: every entry
    must name one of the thirteen parameters, a parameter left out is
    [None]. *)
Definition CryptographicParameters_init (d : gmap string pyval)
    : result CryptographicParameters.t :=
  if bool_decide (dom d ⊆ CryptographicParameters_names) then
    ret (CryptographicParameters.Build
           (kwarg d "block_cipher_mode")
           (kwarg d "padding_method")
           (kwarg d "hashing_algorithm")
           (kwarg d "key_role_type")
           (kwarg d "digital_signature_algorithm")
           (kwarg d "cryptographic_algorithm")
           (kwarg d "random_iv")
           (kwarg d "iv_length")
           (kwarg d "tag_length")
           (kwarg d "fixed_field_length")
           (kwarg d "invocation_field_length")
           (kwarg d "counter_length")
           (kwarg d "initial_counter_value"))
  else raise unexpected_keyword.

(** Modelled from the spec: the keyword constructor of a key-information
    block ([EncryptionKeyInformation], [MACSignatureKeyInformation]), whose
    cryptographic parameters are given as a mapping. *)
Definition KeyInformation_init (d : gmap string pyval)
    : result KeyInformation.t :=
  if bool_decide (dom d ⊆ KeyInformation_names) then
    match kwarg d "cryptographic_parameters" with
    | PyDict p =>
        bind (CryptographicParameters_init p) (fun params =>
        ret (KeyInformation.Build (kwarg d "unique_identifier") params))
    | _ => raise (TypeError "cryptographic parameters must be a dict")
    end
  else raise unexpected_keyword.

(** Modelled from the spec: a key-information argument of
    [KeyWrappingData]; [None] and the empty mapping stand for an absent
    block, a non-empty mapping is expanded into the block's constructor. *)
Definition key_information_arg (v : pyval)
    : result (option KeyInformation.t) :=
  match v with
  | PyNone => ret None
  | PyDict d =>
      if bool_decide (d = ∅) then ret None
      else bind (KeyInformation_init d) (fun i => ret (Some i))
  | _ => raise (TypeError "key information must be a dict")
  end.

(** Modelled from the spec: the keyword constructor of
    [cobjects.KeyWrappingData], called with the entries of [d] as the factory
    calls it. *)
Definition KeyWrappingData_init (d : gmap string pyval)
    : result KeyWrappingData.t :=
  if bool_decide (dom d ⊆ KeyWrappingData_names) then
    bind (key_information_arg (kwarg d "encryption_key_information"))
      (fun encryption =>
    bind (key_information_arg (kwarg d "mac_signature_key_information"))
      (fun mac =>
    ret (KeyWrappingData.Build
           (kwarg d "wrapping_method")
           encryption
           mac
           (kwarg d "mac_signature")
           (kwarg d "iv_counter_nonce")
           (kwarg d "encoding_option"))))
  else raise unexpected_keyword.

End Core.

(** ** The Pie (simplified) object hierarchy

    Modelled from the spec: [kmip/pie/objects.py] is not among the sources.
    The records hold the attributes the factory reads; the constructors
    follow the keyword arguments the factory passes and, for [Certificate],
    the construction contract exercised by [test_certificate.py]. *)

Module Pie.

(** [Key]: the attributes shared by [SymmetricKey], [PublicKey] and
    [PrivateKey].  [key_wrapping_data] is [None] or a [dict]. *)
Module Key.
Record t := Build {
  cryptographic_algorithm : CryptographicAlgorithm;
  cryptographic_length : Z;
  value : list byte;
  key_format_type : KeyFormatType;
  key_wrapping_data : option (gmap string pyval)
}.
End Key.

Module Certificate.
Record t := Build {
  certificate_type : CertificateType;
  value : list byte;
  cryptographic_usage_masks : list CryptographicUsageMask;
  names : list string
}.
End Certificate.

Module SecretData.
Record t := Build {
  value : list byte;
  data_type : SecretDataType
}.
End SecretData.

Module OpaqueObject.
Record t := Build {
  value : list byte;
  opaque_type : OpaqueDataType
}.
End OpaqueObject.

Module SplitKey.
Record t := Build {
  cryptographic_algorithm : CryptographicAlgorithm;
  cryptographic_length : Z;
  value : list byte;
  key_format_type : KeyFormatType;
  key_wrapping_data : option (gmap string pyval);
  split_key_parts : Z;
  key_part_identifier : Z;
  split_key_threshold : Z;
  split_key_method : SplitKeyMethod;
  prime_field_size : option Z
}.
End SplitKey.

(** The seven classes of [kmip.pie.objects] the factory tests for.  An
    instance of any concrete specialization of [Certificate]
    ([X509Certificate], the tests' [DummyCertificate]) is a [Certificate]. *)
Inductive object :=
  | SymmetricKey (k : Key.t)
  | PublicKey (k : Key.t)
  | PrivateKey (k : Key.t)
  | Certificate_ (c : Certificate.t)
  | SecretData_ (s : SecretData.t)
  | OpaqueObject_ (o : OpaqueObject.t)
  | SplitKey_ (s : SplitKey.t).

(** The key classes, as the [cls] argument of [_build_pie_key]. *)
Inductive key_class := SymmetricKey_cls | PublicKey_cls | PrivateKey_cls.

(** Modelled from the spec: the key format type a Pie [SymmetricKey] takes
    at construction.  The constructor has no format-type parameter (the
    factory passes none); the format is the single canonical one of
    symmetric keys. *)
Definition SymmetricKey_format_type (algorithm : CryptographicAlgorithm)
    (value : list byte) : KeyFormatType := RAW.

(** Modelled from the spec: the constructor of [pobjects.SymmetricKey],
    called as [SymmetricKey(algorithm, length, value, key_wrapping_data=...)]. *)
Definition SymmetricKey_init (algorithm : CryptographicAlgorithm)
    (length : Z) (value : list byte)
    (key_wrapping_data : option (gmap string pyval)) : Key.t :=
  Key.Build algorithm length value
            (SymmetricKey_format_type algorithm value) key_wrapping_data.

(** Modelled from the spec: the constructors of [pobjects.PublicKey] and
    [pobjects.PrivateKey], called as
    [cls(algorithm, length, value, format_type, key_wrapping_data=...)]. *)
Definition AsymmetricKey_init (algorithm : CryptographicAlgorithm)
    (length : Z) (value : list byte) (format_type : KeyFormatType)
    (key_wrapping_data : option (gmap string pyval)) : Key.t :=
  Key.Build algorithm length value format_type key_wrapping_data.

(** Modelled from the spec: the default of the [name] parameter of a
    certificate. *)
Definition default_name : string := "Certificate".

(** Modelled from the spec: the constructor of [pobjects.X509Certificate],
    called as [X509Certificate(value)]; masks and name take their
    defaults. *)
Definition X509Certificate_init (value : list byte) : Certificate.t :=
  Certificate.Build X_509 value [] [default_name].

(** *** The construction contract of [Certificate] *)

(** The class instantiated: the abstract [Certificate] itself, or a complete
    subclass of it. *)
Inductive certificate_class := Abstract | Concrete.

Definition as_CertificateType (v : pyval) : option CertificateType :=
  match v with
  | PyEnum (ECertificateType c) => Some c
  | _ => None
  end.

Definition as_bytes (v : pyval) : option (list byte) :=
  match v with
  | PyBytes b => Some b
  | _ => None
  end.

Definition as_str (v : pyval) : option string :=
  match v with
  | PyStr s => Some s
  | _ => None
  end.

Definition as_CryptographicUsageMask (v : pyval)
    : option CryptographicUsageMask :=
  match v with
  | PyEnum (ECryptographicUsageMask m) => Some m
  | _ => None
  end.

(** The [masks] argument: [None] when omitted, otherwise it must be a list
    of usage-mask members. *)
Definition as_masks (v : pyval) : option (list CryptographicUsageMask) :=
  match v with
  | PyNone => Some []
  | PyList l => mapM as_CryptographicUsageMask l
  | _ => None
  end.

(** The [name] argument: the default when omitted, otherwise a string. *)
Definition as_name (name : option pyval) : option string :=
  match name with
  | None => Some default_name
  | Some v => as_str v
  end.

(** Modelled from the spec: the constructor of [pobjects.Certificate] and
    of its complete subclasses, [cls(certificate_type, value, masks, name)].
    The abstract class cannot be instantiated; a subclass validates its four
    fields, [masks] defaults to the empty list and [names] to the one default
    name. *)
Definition Certificate_init (cls : certificate_class)
    (certificate_type value masks : pyval) (name : option pyval)
    : result Certificate.t :=
  match cls with
  | Abstract =>
      raise (TypeError "Can't instantiate abstract class Certificate")
  | Concrete =>
      match as_CertificateType certificate_type with
      | None => raise (TypeError "certificate_type must be a CertificateType enumeration")
      | Some t =>
      match as_bytes value with
      | None => raise (TypeError "certificate value must be bytes")
      | Some b =>
      match as_masks masks with
      | None => raise (TypeError "certificate mask must be a CryptographicUsageMask enumeration")
      | Some ms =>
      match as_name name with
      | None => raise (TypeError "certificate name must be a string")
      | Some n => ret (Certificate.Build t b ms [n])
      end end end end
  end.

(** Modelled from the spec: the [object_type] a concrete certificate
    reports, always the certificate object type. *)
Definition object_type (c : Certificate.t) : ObjectType := CERTIFICATE.

End Pie.

(** ** The factory: kmip/pie/factory.py *)

Module ObjectFactory.

(** What [convert] may be handed: an instance of one of the Pie classes, of
    one of the core secret classes, or anything else (a plain value, or an
    object of another class such as a bare key block). *)
Inductive obj :=
  | PieObj (o : Pie.object)
  | CoreObj (o : Core.object)
  | Value (v : pyval)
  | CoreKeyBlock (kb : Core.KeyBlock.t).

(** A [dict] display [{k1: v1, ...}], written from its items. *)
Definition dict (items : list (string * pyval)) : gmap string pyval :=
  list_to_map items.

Definition _build_cryptographic_parameters
    (value : Core.CryptographicParameters.t) : gmap string pyval :=
  let cryptographic_parameters := dict [
    ("block_cipher_mode",
       Core.CryptographicParameters.block_cipher_mode value);
    ("padding_method", Core.CryptographicParameters.padding_method value);
    ("hashing_algorithm",
       Core.CryptographicParameters.hashing_algorithm value);
    ("key_role_type", Core.CryptographicParameters.key_role_type value);
    ("digital_signature_algorithm",
       Core.CryptographicParameters.digital_signature_algorithm value);
    ("cryptographic_algorithm",
       Core.CryptographicParameters.cryptographic_algorithm value);
    ("random_iv", Core.CryptographicParameters.random_iv value);
    ("iv_length", Core.CryptographicParameters.iv_length value);
    ("tag_length", Core.CryptographicParameters.tag_length value);
    ("fixed_field_length",
       Core.CryptographicParameters.fixed_field_length value);
    ("invocation_field_length",
       Core.CryptographicParameters.invocation_field_length value);
    ("counter_length", Core.CryptographicParameters.counter_length value);
    ("initial_counter_value",
       Core.CryptographicParameters.initial_counter_value value)
  ] in
  cryptographic_parameters.

Definition _build_key_wrapping_data (value : option Core.KeyWrappingData.t)
    : option (gmap string pyval) :=
  match value with
  | None => None
  | Some value =>
      let encryption_key_info :=
        Core.KeyWrappingData.encryption_key_information value in
      let encryption_key_information :=
        match encryption_key_info with
        | Some encryption_key_info =>
            dict [
              ("unique_identifier",
                 Core.KeyInformation.unique_identifier encryption_key_info);
              ("cryptographic_parameters",
                 PyDict (_build_cryptographic_parameters
                           (Core.KeyInformation.cryptographic_parameters
                              encryption_key_info)))
            ]
        | None => dict []
        end in
      let mac_signature_key_info :=
        Core.KeyWrappingData.mac_signature_key_information value in
      let mac_signature_key_information :=
        match mac_signature_key_info with
        | Some mac_signature_key_info =>
            dict [
              ("unique_identifier",
                 Core.KeyInformation.unique_identifier mac_signature_key_info);
              ("cryptographic_parameters",
                 PyDict (_build_cryptographic_parameters
                           (Core.KeyInformation.cryptographic_parameters
                              mac_signature_key_info)))
            ]
        | None => dict []
        end in
      let key_wrapping_data := dict [
        ("wrapping_method", Core.KeyWrappingData.wrapping_method value);
        ("encryption_key_information", PyDict encryption_key_information);
        ("mac_signature_key_information",
           PyDict mac_signature_key_information);
        ("mac_signature", Core.KeyWrappingData.mac_signature value);
        ("iv_counter_nonce", Core.KeyWrappingData.iv_counter_nonce value);
        ("encoding_option", Core.KeyWrappingData.encoding_option value)
      ] in
      Some key_wrapping_data
  end.

Definition unsupported_certificate_type : exn :=
  TypeError "core certificate type not supported".

Definition _build_pie_certificate (cert : Core.Certificate.t)
    : result Pie.Certificate.t :=
  let certificate_type :=
    Core.Primitive.value (Core.Certificate.certificate_type cert) in
  let value :=
    Core.Primitive.value (Core.Certificate.certificate_value cert) in
  if decide (certificate_type = X_509) then
    ret (Pie.X509Certificate_init value)
  else raise unsupported_certificate_type.

(** The message of the format-type error, [expected] and [observed] put in
    by [format]. *)
Definition format_mismatch (expected observed : KeyFormatType) : exn :=
  TypeError ("core key format type not compatible with Pie "
             ++ "SymmetricKey; expected " ++ str_KeyFormatType expected
             ++ ", observed " ++ str_KeyFormatType observed).

Definition _build_pie_key (key : Core.KeyBlock.t) (cls : Pie.key_class)
    : result Pie.object :=
  bind (attr_value Core.Primitive.value
          (Core.KeyBlock.cryptographic_algorithm key)) (fun algorithm =>
  bind (attr_value Core.Primitive.value
          (Core.KeyBlock.cryptographic_length key)) (fun length =>
  let value :=
    Core.Primitive.value
      (Core.KeyValue.key_material (Core.KeyBlock.key_value key)) in
  let format_type := Core.Primitive.value (Core.KeyBlock.key_format_type key) in
  let key_wrapping_data := Core.KeyBlock.key_wrapping_data key in
  match cls with
  | Pie.SymmetricKey_cls =>
      let key :=
        Pie.SymmetricKey_init algorithm length value
          (_build_key_wrapping_data key_wrapping_data) in
      if decide (Pie.Key.key_format_type key ≠ format_type) then
        raise (format_mismatch (Pie.Key.key_format_type key) format_type)
      else ret (Pie.SymmetricKey key)
  | Pie.PublicKey_cls =>
      ret (Pie.PublicKey
             (Pie.AsymmetricKey_init algorithm length value format_type
                (_build_key_wrapping_data key_wrapping_data)))
  | Pie.PrivateKey_cls =>
      ret (Pie.PrivateKey
             (Pie.AsymmetricKey_init algorithm length value format_type
                (_build_key_wrapping_data key_wrapping_data)))
  end)).

Definition _build_pie_secret_data (secret : Core.SecretData.t)
    : Pie.SecretData.t :=
  let secret_data_type :=
    Core.Primitive.value (Core.SecretData.secret_data_type secret) in
  let value :=
    Core.Primitive.value
      (Core.KeyValue.key_material
         (Core.KeyBlock.key_value (Core.SecretData.key_block secret))) in
  Pie.SecretData.Build value secret_data_type.

Definition _build_pie_opaque_object (obj : Core.OpaqueObject.t)
    : Pie.OpaqueObject.t :=
  let opaque_type :=
    Core.Primitive.value (Core.OpaqueObject.opaque_data_type obj) in
  let value :=
    Core.Primitive.value (Core.OpaqueObject.opaque_data_value obj) in
  Pie.OpaqueObject.Build value opaque_type.

Definition _build_pie_split_key (secret : Core.SplitKey.t)
    : result Pie.SplitKey.t :=
  let key_block := Core.SplitKey.key_block secret in
  bind (attr_value Core.Primitive.value
          (Core.KeyBlock.cryptographic_algorithm key_block)) (fun algorithm =>
  bind (attr_value Core.Primitive.value
          (Core.KeyBlock.cryptographic_length key_block)) (fun length =>
  ret (Pie.SplitKey.Build
         algorithm
         length
         (Core.Primitive.value
            (Core.KeyValue.key_material (Core.KeyBlock.key_value key_block)))
         (Core.Primitive.value (Core.KeyBlock.key_format_type key_block))
         (_build_key_wrapping_data (Core.KeyBlock.key_wrapping_data key_block))
         (Core.SplitKey.split_key_parts secret)
         (Core.SplitKey.key_part_identifier secret)
         (Core.SplitKey.split_key_threshold secret)
         (Core.SplitKey.split_key_method secret)
         (Core.SplitKey.prime_field_size secret)))).

(** [if key.key_wrapping_data:] is false for [None] and for the empty
    mapping; otherwise the mapping is expanded into the keyword arguments of
    [cobjects.KeyWrappingData]. *)
Definition core_key_wrapping_data (key_wrapping_data : option (gmap string pyval))
    : result (option Core.KeyWrappingData.t) :=
  match key_wrapping_data with
  | None => ret None
  | Some d =>
      if bool_decide (d = ∅) then ret None
      else bind (Core.KeyWrappingData_init d) (fun w => ret (Some w))
  end.

Definition _build_core_key (key : Pie.Key.t)
    (cls : Core.KeyBlock.t -> Core.object) : result Core.object :=
  let algorithm := Pie.Key.cryptographic_algorithm key in
  let length := Pie.Key.cryptographic_length key in
  let value := Pie.Key.value key in
  let format_type := Pie.Key.key_format_type key in
  let key_material := Core.Primitive.Build value in
  let key_value := Core.KeyValue.Build key_material in
  bind (core_key_wrapping_data (Pie.Key.key_wrapping_data key))
    (fun key_wrapping_data =>
  let key_block :=
    Core.KeyBlock.Build
      (Core.Primitive.Build format_type)
      None
      key_value
      (Some (Core.Primitive.Build algorithm))
      (Some (Core.Primitive.Build length))
      key_wrapping_data in
  ret (cls key_block)).

Definition _build_core_certificate (cert : Pie.Certificate.t)
    : Core.Certificate.t :=
  Core.Certificate_init (Pie.Certificate.certificate_type cert)
                        (Pie.Certificate.value cert).

Definition _build_core_secret_data (secret : Pie.SecretData.t)
    : Core.SecretData.t :=
  let secret_data_type := Pie.SecretData.data_type secret in
  let value := Pie.SecretData.value secret in
  let key_material := Core.Primitive.Build value in
  let key_value := Core.KeyValue.Build key_material in
  let key_block :=
    Core.KeyBlock.Build
      (Core.Primitive.Build OPAQUE)
      None
      key_value
      None
      None
      None in
  let data_type := Core.Primitive.Build secret_data_type in
  Core.SecretData.Build data_type key_block.

Definition _build_core_split_key (secret : Pie.SplitKey.t)
    : result Core.SplitKey.t :=
  let key_material := Core.Primitive.Build (Pie.SplitKey.value secret) in
  let key_value := Core.KeyValue.Build key_material in
  bind (core_key_wrapping_data (Pie.SplitKey.key_wrapping_data secret))
    (fun key_wrapping_data =>
  let key_block :=
    Core.KeyBlock.Build
      (Core.Primitive.Build (Pie.SplitKey.key_format_type secret))
      None
      key_value
      (Some (Core.Primitive.Build (Pie.SplitKey.cryptographic_algorithm secret)))
      (Some (Core.Primitive.Build (Pie.SplitKey.cryptographic_length secret)))
      key_wrapping_data in
  ret (Core.SplitKey.Build
         (Pie.SplitKey.split_key_parts secret)
         (Pie.SplitKey.key_part_identifier secret)
         (Pie.SplitKey.split_key_threshold secret)
         (Pie.SplitKey.split_key_method secret)
         (Pie.SplitKey.prime_field_size secret)
         key_block)).

Definition _build_core_opaque_object (obj : Pie.OpaqueObject.t)
    : Core.OpaqueObject.t :=
  let opaque_type := Pie.OpaqueObject.opaque_type obj in
  let value := Pie.OpaqueObject.value obj in
  let opaque_data_type := Core.Primitive.Build opaque_type in
  let opaque_data_value := Core.Primitive.Build value in
  Core.OpaqueObject.Build opaque_data_type opaque_data_value.

Definition unsupported_object_type : exn :=
  TypeError "object type unsupported and cannot be converted".

(** [convert]: the chain of [isinstance] tests, in the order of the
    source. *)
Definition convert (o : obj) : result obj :=
  match o with
  | PieObj (Pie.SymmetricKey k) =>
      bind (_build_core_key k Core.SymmetricKey) (fun r => ret (CoreObj r))
  | CoreObj (Core.SymmetricKey kb) =>
      bind (_build_pie_key kb Pie.SymmetricKey_cls) (fun r => ret (PieObj r))
  | PieObj (Pie.PublicKey k) =>
      bind (_build_core_key k Core.PublicKey) (fun r => ret (CoreObj r))
  | CoreObj (Core.PublicKey kb) =>
      bind (_build_pie_key kb Pie.PublicKey_cls) (fun r => ret (PieObj r))
  | PieObj (Pie.PrivateKey k) =>
      bind (_build_core_key k Core.PrivateKey) (fun r => ret (CoreObj r))
  | CoreObj (Core.PrivateKey kb) =>
      bind (_build_pie_key kb Pie.PrivateKey_cls) (fun r => ret (PieObj r))
  | PieObj (Pie.Certificate_ c) =>
      ret (CoreObj (Core.Certificate_ (_build_core_certificate c)))
  | CoreObj (Core.Certificate_ c) =>
      bind (_build_pie_certificate c)
        (fun r => ret (PieObj (Pie.Certificate_ r)))
  | PieObj (Pie.SecretData_ s) =>
      ret (CoreObj (Core.SecretData_ (_build_core_secret_data s)))
  | CoreObj (Core.SecretData_ s) =>
      ret (PieObj (Pie.SecretData_ (_build_pie_secret_data s)))
  | PieObj (Pie.OpaqueObject_ o) =>
      ret (CoreObj (Core.OpaqueObject_ (_build_core_opaque_object o)))
  | CoreObj (Core.OpaqueObject_ o) =>
      ret (PieObj (Pie.OpaqueObject_ (_build_pie_opaque_object o)))
  | PieObj (Pie.SplitKey_ s) =>
      bind (_build_core_split_key s)
        (fun r => ret (CoreObj (Core.SplitKey_ r)))
  | CoreObj (Core.SplitKey_ s) =>
      bind (_build_pie_split_key s)
        (fun r => ret (PieObj (Pie.SplitKey_ r)))
  | Value _ | CoreKeyBlock _ => raise unsupported_object_type
  end.

End ObjectFactory.

Import ObjectFactory.

(** * Notions used by the statements *)

(** The mapping a present key-information block is expanded to. *)
Definition key_information_mapping (info : option Core.KeyInformation.t)
    : gmap string pyval :=
  match info with
  | None => ∅
  | Some i =>
      <[ "unique_identifier" := Core.KeyInformation.unique_identifier i ]>
      {[ "cryptographic_parameters" :=
           PyDict (_build_cryptographic_parameters
                     (Core.KeyInformation.cryptographic_parameters i)) ]}
  end.

(** The objects [convert] recognizes. *)
Definition recognized (o : obj) : bool :=
  match o with
  | PieObj _ | CoreObj _ => true
  | Value _ | CoreKeyBlock _ => false
  end.

(** [convert(convert(x))]. *)
Definition convert_twice (o : obj) : result obj := bind (convert o) convert.

(** A list of usage masks, as the [masks] argument of a certificate. *)
Definition masks_arg (masks : list CryptographicUsageMask) : pyval :=
  PyList (map (fun m => PyEnum (ECryptographicUsageMask m)) masks).

(** The arguments a certificate cannot be built from. *)
Definition invalid_certificate_type (v : pyval) : Prop :=
  forall c, v <> PyEnum (ECertificateType c).

Definition invalid_value (v : pyval) : Prop :=
  forall b, v <> PyBytes b.

Definition invalid_masks (v : pyval) : Prop :=
  v <> PyNone /\ forall masks, v <> masks_arg masks.

Definition invalid_name (name : option pyval) : Prop :=
  exists v, name = Some v /\ forall s, v <> PyStr s.

(** *** Well-formed objects and the fields a conversion carries *)

(** A cryptographic-parameters mapping: one entry for each parameter. *)
Definition wf_parameters (p : gmap string pyval) : Prop :=
  dom p = Core.CryptographicParameters_names.

(** A key-information entry: the empty mapping, or a mapping of
    [unique_identifier] and of a cryptographic-parameters mapping. *)
Definition wf_key_information (v : pyval) : Prop :=
  exists m,
    v = PyDict m
    /\ (m = ∅
        \/ (dom m = Core.KeyInformation_names
            /\ exists p, m !! "cryptographic_parameters" = Some (PyDict p)
                         /\ wf_parameters p)).

(** A key-wrapping-data mapping: one entry for each of the six fields, the
    two key-information entries well formed. *)
Definition wf_wrapping_data (d : gmap string pyval) : Prop :=
  dom d = Core.KeyWrappingData_names
  /\ (exists e, d !! "encryption_key_information" = Some e
                /\ wf_key_information e)
  /\ (exists e, d !! "mac_signature_key_information" = Some e
                /\ wf_key_information e).

Definition wf_wrapping (w : option (gmap string pyval)) : Prop :=
  match w with
  | None => True
  | Some d => wf_wrapping_data d
  end.

(** A well-formed Pie object: a symmetric key has the format type its
    constructor gives it, wrapping data is absent or a complete mapping, a
    certificate is an X.509 certificate. *)
Definition pie_well_formed (o : Pie.object) : Prop :=
  match o with
  | Pie.SymmetricKey k =>
      Pie.Key.key_format_type k
      = Pie.SymmetricKey_format_type (Pie.Key.cryptographic_algorithm k)
          (Pie.Key.value k)
      /\ wf_wrapping (Pie.Key.key_wrapping_data k)
  | Pie.PublicKey k | Pie.PrivateKey k =>
      wf_wrapping (Pie.Key.key_wrapping_data k)
  | Pie.Certificate_ c => Pie.Certificate.certificate_type c = X_509
  | Pie.SecretData_ _ | Pie.OpaqueObject_ _ => True
  | Pie.SplitKey_ s => wf_wrapping (Pie.SplitKey.key_wrapping_data s)
  end.

(** A key block that carries an algorithm and a length. *)
Definition key_block_complete (kb : Core.KeyBlock.t) : Prop :=
  is_Some (Core.KeyBlock.cryptographic_algorithm kb)
  /\ is_Some (Core.KeyBlock.cryptographic_length kb).

(** The format type a Pie symmetric key built from the block would take. *)
Definition implied_format_type (kb : Core.KeyBlock.t)
    : option KeyFormatType :=
  match Core.KeyBlock.cryptographic_algorithm kb with
  | Some a =>
      Some (Pie.SymmetricKey_format_type (Core.Primitive.value a)
              (Core.Primitive.value
                 (Core.KeyValue.key_material (Core.KeyBlock.key_value kb))))
  | None => None
  end.

(** A well-formed core object: the key block of a key carries an algorithm
    and a length, a symmetric key declares the format type implied by its
    material and algorithm, a certificate is an X.509 certificate. *)
Definition core_well_formed (o : Core.object) : Prop :=
  match o with
  | Core.SymmetricKey kb =>
      key_block_complete kb
      /\ implied_format_type kb
         = Some (Core.Primitive.value (Core.KeyBlock.key_format_type kb))
  | Core.PublicKey kb | Core.PrivateKey kb => key_block_complete kb
  | Core.Certificate_ c =>
      Core.Primitive.value (Core.Certificate.certificate_type c) = X_509
  | Core.SecretData_ _ | Core.OpaqueObject_ _ => True
  | Core.SplitKey_ s => key_block_complete (Core.SplitKey.key_block s)
  end.

(** Equality of key blocks on the fields of a key: format type, material,
    algorithm, length and wrapping data. *)
Definition key_block_eq (a b : Core.KeyBlock.t) : Prop :=
  Core.KeyBlock.key_format_type a = Core.KeyBlock.key_format_type b
  /\ Core.KeyBlock.key_value a = Core.KeyBlock.key_value b
  /\ Core.KeyBlock.cryptographic_algorithm a
     = Core.KeyBlock.cryptographic_algorithm b
  /\ Core.KeyBlock.cryptographic_length a
     = Core.KeyBlock.cryptographic_length b
  /\ Core.KeyBlock.key_wrapping_data a = Core.KeyBlock.key_wrapping_data b.

(** Equality of core objects on their semantic fields. *)
Definition core_semantic_eq (a b : Core.object) : Prop :=
  match a, b with
  | Core.SymmetricKey x, Core.SymmetricKey y
  | Core.PublicKey x, Core.PublicKey y
  | Core.PrivateKey x, Core.PrivateKey y => key_block_eq x y
  | Core.Certificate_ x, Core.Certificate_ y => x = y
  | Core.SecretData_ x, Core.SecretData_ y =>
      Core.SecretData.secret_data_type x = Core.SecretData.secret_data_type y
      /\ Core.KeyBlock.key_value (Core.SecretData.key_block x)
         = Core.KeyBlock.key_value (Core.SecretData.key_block y)
  | Core.OpaqueObject_ x, Core.OpaqueObject_ y => x = y
  | Core.SplitKey_ x, Core.SplitKey_ y =>
      Core.SplitKey.split_key_parts x = Core.SplitKey.split_key_parts y
      /\ Core.SplitKey.key_part_identifier x
         = Core.SplitKey.key_part_identifier y
      /\ Core.SplitKey.split_key_threshold x
         = Core.SplitKey.split_key_threshold y
      /\ Core.SplitKey.split_key_method x = Core.SplitKey.split_key_method y
      /\ Core.SplitKey.prime_field_size x = Core.SplitKey.prime_field_size y
      /\ key_block_eq (Core.SplitKey.key_block x) (Core.SplitKey.key_block y)
  | _, _ => False
  end.

(** What comes back of a Pie object: the object itself, a certificate with
    the default usage masks and names in place of its own. *)
Definition carried (o : Pie.object) : Pie.object :=
  match o with
  | Pie.Certificate_ c =>
      Pie.Certificate_
        (Pie.Certificate.Build (Pie.Certificate.certificate_type c)
           (Pie.Certificate.value c) [] [Pie.default_name])
  | _ => o
  end.

(** *** Universes, variants and canonical core objects *)

Inductive universe := Simplified | Protocol.

Inductive variant :=
  | VSymmetricKey | VPublicKey | VPrivateKey | VCertificate | VSecretData
  | VOpaqueObject | VSplitKey.

Definition opposite (u : universe) : universe :=
  match u with
  | Simplified => Protocol
  | Protocol => Simplified
  end.

(** The universe and the variant of an object, when it has one. *)
Definition tag_of (o : obj) : option (universe * variant) :=
  match o with
  | PieObj (Pie.SymmetricKey _) => Some (Simplified, VSymmetricKey)
  | PieObj (Pie.PublicKey _) => Some (Simplified, VPublicKey)
  | PieObj (Pie.PrivateKey _) => Some (Simplified, VPrivateKey)
  | PieObj (Pie.Certificate_ _) => Some (Simplified, VCertificate)
  | PieObj (Pie.SecretData_ _) => Some (Simplified, VSecretData)
  | PieObj (Pie.OpaqueObject_ _) => Some (Simplified, VOpaqueObject)
  | PieObj (Pie.SplitKey_ _) => Some (Simplified, VSplitKey)
  | CoreObj (Core.SymmetricKey _) => Some (Protocol, VSymmetricKey)
  | CoreObj (Core.PublicKey _) => Some (Protocol, VPublicKey)
  | CoreObj (Core.PrivateKey _) => Some (Protocol, VPrivateKey)
  | CoreObj (Core.Certificate_ _) => Some (Protocol, VCertificate)
  | CoreObj (Core.SecretData_ _) => Some (Protocol, VSecretData)
  | CoreObj (Core.OpaqueObject_ _) => Some (Protocol, VOpaqueObject)
  | CoreObj (Core.SplitKey_ _) => Some (Protocol, VSplitKey)
  | Value _ | CoreKeyBlock _ => None
  end.

(** The key block whose algorithm and length the conversion of a core
    object reads: that of a key or of a split key. *)
Definition read_key_block (o : Core.object) : option Core.KeyBlock.t :=
  match o with
  | Core.SymmetricKey kb | Core.PublicKey kb | Core.PrivateKey kb => Some kb
  | Core.SplitKey_ s => Some (Core.SplitKey.key_block s)
  | Core.Certificate_ _ | Core.SecretData_ _ | Core.OpaqueObject_ _ => None
  end.

(** The error of reading [.value] of [None]. *)
Definition none_has_no_value : exn :=
  AttributeError "'NoneType' object has no attribute 'value'".

(** A core object in the form the factory builds: no key compression type,
    and for secret data the opaque key block without algorithm, length and
    wrapping data. *)
Definition core_canonical (o : Core.object) : Prop :=
  match o with
  | Core.SymmetricKey kb | Core.PublicKey kb | Core.PrivateKey kb =>
      Core.KeyBlock.key_compression_type kb = None
  | Core.SplitKey_ s =>
      Core.KeyBlock.key_compression_type (Core.SplitKey.key_block s) = None
  | Core.SecretData_ s =>
      Core.SecretData.key_block s
      = Core.KeyBlock.Build (Core.Primitive.Build OPAQUE) None
          (Core.KeyBlock.key_value (Core.SecretData.key_block s))
          None None None
  | Core.Certificate_ _ | Core.OpaqueObject_ _ => True
  end.

(** A key block with its key compression type dropped. *)
Definition without_compression (kb : Core.KeyBlock.t) : Core.KeyBlock.t :=
  Core.KeyBlock.Build
    (Core.KeyBlock.key_format_type kb)
    None
    (Core.KeyBlock.key_value kb)
    (Core.KeyBlock.cryptographic_algorithm kb)
    (Core.KeyBlock.cryptographic_length kb)
    (Core.KeyBlock.key_wrapping_data kb).

(** What comes back of a core object: key blocks lose their key compression
    type, the key block of secret data keeps its key value only. *)
Definition core_rebuilt (o : Core.object) : Core.object :=
  match o with
  | Core.SymmetricKey kb => Core.SymmetricKey (without_compression kb)
  | Core.PublicKey kb => Core.PublicKey (without_compression kb)
  | Core.PrivateKey kb => Core.PrivateKey (without_compression kb)
  | Core.Certificate_ c => Core.Certificate_ c
  | Core.SecretData_ s =>
      Core.SecretData_
        (Core.SecretData.Build (Core.SecretData.secret_data_type s)
           (Core.KeyBlock.Build (Core.Primitive.Build OPAQUE) None
              (Core.KeyBlock.key_value (Core.SecretData.key_block s))
              None None None))
  | Core.OpaqueObject_ x => Core.OpaqueObject_ x
  | Core.SplitKey_ s =>
      Core.SplitKey_
        (Core.SplitKey.Build
           (Core.SplitKey.split_key_parts s)
           (Core.SplitKey.key_part_identifier s)
           (Core.SplitKey.split_key_threshold s)
           (Core.SplitKey.split_key_method s)
           (Core.SplitKey.prime_field_size s)
           (without_compression (Core.SplitKey.key_block s)))
  end.

(** *** Sample objects *)

Definition sample_parameters : gmap string pyval :=
  dict [
    ("block_cipher_mode", PyEnum (EOther "BlockCipherMode" 13));
    ("padding_method", PyNone);
    ("hashing_algorithm", PyNone);
    ("key_role_type", PyNone);
    ("digital_signature_algorithm", PyNone);
    ("cryptographic_algorithm", PyNone);
    ("random_iv", PyBool false);
    ("iv_length", PyInt 96);
    ("tag_length", PyNone);
    ("fixed_field_length", PyNone);
    ("invocation_field_length", PyNone);
    ("counter_length", PyNone);
    ("initial_counter_value", PyNone)
  ].

Definition sample_wrapping_data : gmap string pyval :=
  dict [
    ("wrapping_method", PyEnum (EOther "WrappingMethod" 1));
    ("encryption_key_information",
       PyDict (dict [
         ("unique_identifier", PyStr "100182d5-72b8");
         ("cryptographic_parameters", PyDict sample_parameters) ]));
    ("mac_signature_key_information", PyDict ∅);
    ("mac_signature", PyNone);
    ("iv_counter_nonce", PyNone);
    ("encoding_option", PyEnum (EOther "EncodingOption" 1))
  ].

Definition sample_wrapped_key : Pie.Key.t :=
  Pie.Key.Build AES 128
    [x00; x01; x02; x03; x04; x05; x06; x07;
     x08; x09; x0a; x0b; x0c; x0d; x0e; x0f]
    RAW (Some sample_wrapping_data).

Definition sample_core_split_key : Core.SplitKey.t :=
  Core.SplitKey.Build 4 1 2 XOR None
    (Core.KeyBlock.Build (Core.Primitive.Build RAW)
       (Some (PyEnum (EOther "KeyCompressionType" 1)))
       (Core.KeyValue.Build (Core.Primitive.Build [x66; xc4]))
       (Some (Core.Primitive.Build AES))
       (Some (Core.Primitive.Build 16))
       None).

Definition sample_certificate : Pie.Certificate.t :=
  Pie.Certificate.Build X_509 [x30; x82; x03; x12]
    [ENCRYPT; VERIFY] ["Test Certificate"].

(** * Properties *)

(** ** The nested-structure builders *)

(** C6: for every source cryptographic-parameters object, the mapping built
    by [_build_cryptographic_parameters] has exactly the thirteen parameter
    names as keys, and each entry is the corresponding attribute of the
    source, whatever it is ([None] included): nothing is validated and nothing
    is defaulted. *)
Theorem build_cryptographic_parameters_copies :
  forall value : Core.CryptographicParameters.t,
    let m := _build_cryptographic_parameters value in
    dom m = Core.CryptographicParameters_names
    /\ m !! "block_cipher_mode"
       = Some (Core.CryptographicParameters.block_cipher_mode value)
    /\ m !! "padding_method"
       = Some (Core.CryptographicParameters.padding_method value)
    /\ m !! "hashing_algorithm"
       = Some (Core.CryptographicParameters.hashing_algorithm value)
    /\ m !! "key_role_type"
       = Some (Core.CryptographicParameters.key_role_type value)
    /\ m !! "digital_signature_algorithm"
       = Some (Core.CryptographicParameters.digital_signature_algorithm value)
    /\ m !! "cryptographic_algorithm"
       = Some (Core.CryptographicParameters.cryptographic_algorithm value)
    /\ m !! "random_iv"
       = Some (Core.CryptographicParameters.random_iv value)
    /\ m !! "iv_length"
       = Some (Core.CryptographicParameters.iv_length value)
    /\ m !! "tag_length"
       = Some (Core.CryptographicParameters.tag_length value)
    /\ m !! "fixed_field_length"
       = Some (Core.CryptographicParameters.fixed_field_length value)
    /\ m !! "invocation_field_length"
       = Some (Core.CryptographicParameters.invocation_field_length value)
    /\ m !! "counter_length"
       = Some (Core.CryptographicParameters.counter_length value)
    /\ m !! "initial_counter_value"
       = Some (Core.CryptographicParameters.initial_counter_value value).
Proof.
  intros value m. split.
  - subst m.
    unfold _build_cryptographic_parameters, dict,
      Core.CryptographicParameters_names.
    rewrite dom_list_to_map_L. simpl. set_solver.
  - repeat split; reflexivity.
Qed.

Lemma build_key_wrapping_data_Some (w : Core.KeyWrappingData.t) :
  _build_key_wrapping_data (Some w)
  = Some (dict [
      ("wrapping_method", Core.KeyWrappingData.wrapping_method w);
      ("encryption_key_information",
         PyDict (key_information_mapping
                   (Core.KeyWrappingData.encryption_key_information w)));
      ("mac_signature_key_information",
         PyDict (key_information_mapping
                   (Core.KeyWrappingData.mac_signature_key_information w)));
      ("mac_signature", Core.KeyWrappingData.mac_signature w);
      ("iv_counter_nonce", Core.KeyWrappingData.iv_counter_nonce w);
      ("encoding_option", Core.KeyWrappingData.encoding_option w) ]).
Proof.
  unfold _build_key_wrapping_data.
  destruct (Core.KeyWrappingData.encryption_key_information w),
    (Core.KeyWrappingData.mac_signature_key_information w); reflexivity.
Qed.

(** C5: an absent wrapping-data source gives [None], not an empty mapping; a
    present one gives a mapping whose keys are exactly the six wrapping-data
    names, where each key-information entry is the empty mapping when the
    source block is absent and otherwise the mapping of [unique_identifier]
    and of the built [cryptographic_parameters]. *)
Theorem build_key_wrapping_data_absent_or_complete :
  _build_key_wrapping_data None = None
  /\ forall w : Core.KeyWrappingData.t,
       exists d : gmap string pyval,
         _build_key_wrapping_data (Some w) = Some d
         /\ dom d = Core.KeyWrappingData_names
         /\ d !! "wrapping_method"
            = Some (Core.KeyWrappingData.wrapping_method w)
         /\ d !! "encryption_key_information"
            = Some (PyDict
                (match Core.KeyWrappingData.encryption_key_information w with
                 | None => ∅
                 | Some i =>
                     <[ "unique_identifier" :=
                          Core.KeyInformation.unique_identifier i ]>
                     {[ "cryptographic_parameters" :=
                          PyDict (_build_cryptographic_parameters
                            (Core.KeyInformation.cryptographic_parameters i)) ]}
                 end))
         /\ d !! "mac_signature_key_information"
            = Some (PyDict
                (match Core.KeyWrappingData.mac_signature_key_information w with
                 | None => ∅
                 | Some i =>
                     <[ "unique_identifier" :=
                          Core.KeyInformation.unique_identifier i ]>
                     {[ "cryptographic_parameters" :=
                          PyDict (_build_cryptographic_parameters
                            (Core.KeyInformation.cryptographic_parameters i)) ]}
                 end))
         /\ d !! "mac_signature"
            = Some (Core.KeyWrappingData.mac_signature w)
         /\ d !! "iv_counter_nonce"
            = Some (Core.KeyWrappingData.iv_counter_nonce w)
         /\ d !! "encoding_option"
            = Some (Core.KeyWrappingData.encoding_option w).
Proof.
  split; [reflexivity |].
  intros w. eexists. split; [apply build_key_wrapping_data_Some |].
  split.
  - unfold dict, Core.KeyWrappingData_names.
    rewrite dom_list_to_map_L. simpl. set_solver.
  - repeat split; reflexivity.
Qed.

(** ** Building core objects *)

(** C7: a Pie [SecretData] is converted to a core secret-data object whose
    key block holds the key material, has key format type [OPAQUE], and has
    no cryptographic algorithm, no cryptographic length and no key wrapping
    data. *)
Theorem build_core_secret_data_opaque_block :
  forall secret : Pie.SecretData.t,
    exists s : Core.SecretData.t,
      convert (PieObj (Pie.SecretData_ secret))
      = ret (CoreObj (Core.SecretData_ s))
      /\ Core.Primitive.value (Core.SecretData.secret_data_type s)
         = Pie.SecretData.data_type secret
      /\ Core.Primitive.value
           (Core.KeyValue.key_material
              (Core.KeyBlock.key_value (Core.SecretData.key_block s)))
         = Pie.SecretData.value secret
      /\ Core.Primitive.value
           (Core.KeyBlock.key_format_type (Core.SecretData.key_block s))
         = OPAQUE
      /\ Core.KeyBlock.cryptographic_algorithm (Core.SecretData.key_block s)
         = None
      /\ Core.KeyBlock.cryptographic_length (Core.SecretData.key_block s)
         = None
      /\ Core.KeyBlock.key_wrapping_data (Core.SecretData.key_block s)
         = None.
Proof.
  intros secret. exists (_build_core_secret_data secret).
  repeat split; reflexivity.
Qed.

Lemma core_key_wrapping_data_empty :
  core_key_wrapping_data (Some ∅) = ret None.
Proof. reflexivity. Qed.

Lemma core_key_wrapping_data_None :
  core_key_wrapping_data None = ret None.
Proof. reflexivity. Qed.

(** C10: a Pie key or split key whose [key_wrapping_data] is the empty
    mapping is converted to a core object whose key block has no key wrapping
    data, the very object a key without wrapping data is converted to. *)
Theorem empty_wrapping_data_converts_as_absent :
  forall algorithm length value format_type,
    let kb :=
      Core.KeyBlock.Build
        (Core.Primitive.Build format_type)
        None
        (Core.KeyValue.Build (Core.Primitive.Build value))
        (Some (Core.Primitive.Build algorithm))
        (Some (Core.Primitive.Build length))
        None in
    let empty := Pie.Key.Build algorithm length value format_type (Some ∅) in
    let absent := Pie.Key.Build algorithm length value format_type None in
    Core.KeyBlock.key_wrapping_data kb = None
    /\ convert (PieObj (Pie.SymmetricKey empty))
       = ret (CoreObj (Core.SymmetricKey kb))
    /\ convert (PieObj (Pie.SymmetricKey absent))
       = ret (CoreObj (Core.SymmetricKey kb))
    /\ convert (PieObj (Pie.PublicKey empty))
       = ret (CoreObj (Core.PublicKey kb))
    /\ convert (PieObj (Pie.PublicKey absent))
       = ret (CoreObj (Core.PublicKey kb))
    /\ convert (PieObj (Pie.PrivateKey empty))
       = ret (CoreObj (Core.PrivateKey kb))
    /\ convert (PieObj (Pie.PrivateKey absent))
       = ret (CoreObj (Core.PrivateKey kb))
    /\ forall parts identifier threshold method prime,
         let s :=
           Core.SplitKey.Build parts identifier threshold method prime kb in
         convert (PieObj (Pie.SplitKey_
                    (Pie.SplitKey.Build algorithm length value format_type
                       (Some ∅) parts identifier threshold method prime)))
         = ret (CoreObj (Core.SplitKey_ s))
         /\ convert (PieObj (Pie.SplitKey_
                       (Pie.SplitKey.Build algorithm length value format_type
                          None parts identifier threshold method prime)))
            = ret (CoreObj (Core.SplitKey_ s)).
Proof.
  intros. repeat split; reflexivity.
Qed.

(** ** Converting core objects *)

(** C4: a core certificate whose type is [X_509] is converted to the Pie
    X.509 certificate carrying its value; a core certificate of any other
    type makes [convert] raise the unsupported-certificate-type error. *)
Theorem convert_core_certificate_type_guard :
  (forall value : list byte,
      exists c : Pie.Certificate.t,
        convert (CoreObj (Core.Certificate_ (Core.Certificate_init X_509 value)))
        = ret (PieObj (Pie.Certificate_ c))
        /\ c = Pie.X509Certificate_init value
        /\ Pie.Certificate.certificate_type c = X_509
        /\ Pie.Certificate.value c = value)
  /\ (forall cert : Core.Certificate.t,
        Core.Primitive.value (Core.Certificate.certificate_type cert) <> X_509 ->
        convert (CoreObj (Core.Certificate_ cert))
        = raise unsupported_certificate_type).
Proof.
  split.
  - intros value. eexists. repeat split; reflexivity.
  - intros cert Hne. simpl. unfold _build_pie_certificate.
    destruct (decide _) as [Heq | _]; [contradiction | reflexivity].
Qed.

Lemma convert_core_certificate_type_guard_witness :
  convert (CoreObj (Core.Certificate_ (Core.Certificate_init PGP [x30; x82])))
  = raise unsupported_certificate_type.
Proof.
  apply (proj2 convert_core_certificate_type_guard
           (Core.Certificate_init PGP [x30; x82])).
  simpl. discriminate.
Defined.

Lemma build_pie_key_present (kb : Core.KeyBlock.t) algorithm length cls :
  Core.KeyBlock.cryptographic_algorithm kb = Some algorithm ->
  Core.KeyBlock.cryptographic_length kb = Some length ->
  _build_pie_key kb cls
  = let value :=
      Core.Primitive.value
        (Core.KeyValue.key_material (Core.KeyBlock.key_value kb)) in
    let format_type := Core.Primitive.value (Core.KeyBlock.key_format_type kb) in
    let wrapping :=
      _build_key_wrapping_data (Core.KeyBlock.key_wrapping_data kb) in
    match cls with
    | Pie.SymmetricKey_cls =>
        let key :=
          Pie.SymmetricKey_init (Core.Primitive.value algorithm)
            (Core.Primitive.value length) value wrapping in
        if decide (Pie.Key.key_format_type key ≠ format_type) then
          raise (format_mismatch (Pie.Key.key_format_type key) format_type)
        else ret (Pie.SymmetricKey key)
    | Pie.PublicKey_cls =>
        ret (Pie.PublicKey
               (Pie.AsymmetricKey_init (Core.Primitive.value algorithm)
                  (Core.Primitive.value length) value format_type wrapping))
    | Pie.PrivateKey_cls =>
        ret (Pie.PrivateKey
               (Pie.AsymmetricKey_init (Core.Primitive.value algorithm)
                  (Core.Primitive.value length) value format_type wrapping))
    end.
Proof.
  intros Ha Hl. unfold _build_pie_key. rewrite Ha, Hl. reflexivity.
Qed.

Lemma build_pie_key_asymmetric_no_mismatch (kb : Core.KeyBlock.t) cls
    expected observed :
  cls <> Pie.SymmetricKey_cls ->
  bind (_build_pie_key kb cls) (fun r => ret (PieObj r))
  <> raise (format_mismatch expected observed).
Proof.
  intros Hcls. unfold _build_pie_key.
  destruct (Core.KeyBlock.cryptographic_algorithm kb) as [a |];
    [| discriminate].
  destruct (Core.KeyBlock.cryptographic_length kb) as [l |];
    [| discriminate].
  destruct cls; [contradiction | discriminate | discriminate].
Qed.

(** C3: a core [SymmetricKey] whose key block carries an algorithm and a
    length and declares a key format type other than the one the rebuilt Pie
    [SymmetricKey] takes makes [convert] raise the format-mismatch error; a
    core [PublicKey] or [PrivateKey] is converted with whatever format type
    it declares, and never raises that error. *)
Theorem symmetric_key_format_guard :
  (forall (kb : Core.KeyBlock.t) algorithm length,
      Core.KeyBlock.cryptographic_algorithm kb = Some algorithm ->
      Core.KeyBlock.cryptographic_length kb = Some length ->
      let material :=
        Core.Primitive.value
          (Core.KeyValue.key_material (Core.KeyBlock.key_value kb)) in
      let declared := Core.Primitive.value (Core.KeyBlock.key_format_type kb) in
      let implied :=
        Pie.SymmetricKey_format_type (Core.Primitive.value algorithm)
          material in
      let key :=
        Pie.Key.Build (Core.Primitive.value algorithm)
          (Core.Primitive.value length) material declared
          (_build_key_wrapping_data (Core.KeyBlock.key_wrapping_data kb)) in
      (declared <> implied ->
       convert (CoreObj (Core.SymmetricKey kb))
       = raise (format_mismatch implied declared))
      /\ convert (CoreObj (Core.PublicKey kb))
         = ret (PieObj (Pie.PublicKey key))
      /\ convert (CoreObj (Core.PrivateKey kb))
         = ret (PieObj (Pie.PrivateKey key)))
  /\ (forall (kb : Core.KeyBlock.t) expected observed,
        convert (CoreObj (Core.PublicKey kb))
        <> raise (format_mismatch expected observed)
        /\ convert (CoreObj (Core.PrivateKey kb))
           <> raise (format_mismatch expected observed)).
Proof.
  split.
  - intros kb algorithm length Ha Hl material declared implied key.
    simpl. rewrite !(build_pie_key_present kb algorithm length _ Ha Hl).
    split; [| split; reflexivity].
    intros Hne. simpl. fold material declared implied.
    destruct (decide _) as [_ | Heq]; [reflexivity |].
    exfalso. apply Heq. intros E. apply Hne. symmetry. exact E.
  - intros kb expected observed.
    split; apply build_pie_key_asymmetric_no_mismatch; discriminate.
Qed.

Lemma symmetric_key_format_guard_witness :
  convert (CoreObj (Core.SymmetricKey
             (Core.KeyBlock.Build (Core.Primitive.Build OPAQUE) None
                (Core.KeyValue.Build
                   (Core.Primitive.Build
                      [x00; x01; x02; x03; x04; x05; x06; x07;
                       x08; x09; x0a; x0b; x0c; x0d; x0e; x0f]))
                (Some (Core.Primitive.Build AES))
                (Some (Core.Primitive.Build 128)) None)))
  = raise (format_mismatch RAW OPAQUE)
  /\ convert (CoreObj (Core.PublicKey
                (Core.KeyBlock.Build (Core.Primitive.Build PKCS_1) None
                   (Core.KeyValue.Build
                      (Core.Primitive.Build [x30; x82; x01; x0a]))
                   (Some (Core.Primitive.Build RSA))
                   (Some (Core.Primitive.Build 2048)) None)))
     = ret (PieObj (Pie.PublicKey
                      (Pie.Key.Build RSA 2048 [x30; x82; x01; x0a] PKCS_1
                         None))).
Proof.
  split.
  - apply (proj1 symmetric_key_format_guard
             (Core.KeyBlock.Build (Core.Primitive.Build OPAQUE) None
                (Core.KeyValue.Build
                   (Core.Primitive.Build
                      [x00; x01; x02; x03; x04; x05; x06; x07;
                       x08; x09; x0a; x0b; x0c; x0d; x0e; x0f]))
                (Some (Core.Primitive.Build AES))
                (Some (Core.Primitive.Build 128)) None)
             (Core.Primitive.Build AES) (Core.Primitive.Build 128)
             eq_refl eq_refl).
    simpl. discriminate.
  - apply (proj1 symmetric_key_format_guard
             (Core.KeyBlock.Build (Core.Primitive.Build PKCS_1) None
                (Core.KeyValue.Build
                   (Core.Primitive.Build [x30; x82; x01; x0a]))
                (Some (Core.Primitive.Build RSA))
                (Some (Core.Primitive.Build 2048)) None)
             (Core.Primitive.Build RSA) (Core.Primitive.Build 2048)
             eq_refl eq_refl).
Defined.

(** C3 fails for a symmetric key whose key block has no cryptographic
    length: its declared format type [OPAQUE] differs from the one implied by
    its material and algorithm, yet [convert] reads [.value] of the missing
    length before it compares format types, and raises an [AttributeError],
    not the format-mismatch error. *)
Lemma symmetric_key_without_length_raises_attribute_error :
  implied_format_type
    (Core.KeyBlock.Build (Core.Primitive.Build OPAQUE) None
       (Core.KeyValue.Build (Core.Primitive.Build [x01; x02]))
       (Some (Core.Primitive.Build AES)) None None)
  = Some RAW
  /\ Core.Primitive.value
       (Core.KeyBlock.key_format_type
          (Core.KeyBlock.Build (Core.Primitive.Build OPAQUE) None
             (Core.KeyValue.Build (Core.Primitive.Build [x01; x02]))
             (Some (Core.Primitive.Build AES)) None None))
     <> RAW
  /\ convert (CoreObj (Core.SymmetricKey
                (Core.KeyBlock.Build (Core.Primitive.Build OPAQUE) None
                   (Core.KeyValue.Build (Core.Primitive.Build [x01; x02]))
                   (Some (Core.Primitive.Build AES)) None None)))
     = raise (AttributeError "'NoneType' object has no attribute 'value'")
  /\ convert (CoreObj (Core.SymmetricKey
                (Core.KeyBlock.Build (Core.Primitive.Build OPAQUE) None
                   (Core.KeyValue.Build (Core.Primitive.Build [x01; x02]))
                   (Some (Core.Primitive.Build AES)) None None)))
     <> raise (format_mismatch RAW OPAQUE).
Proof.
  split; [reflexivity |]. split; [discriminate |].
  split; [reflexivity | discriminate].
Qed.

(** ** Dispatch *)

Lemma core_key_wrapping_data_error (w : option (gmap string pyval)) e :
  core_key_wrapping_data w = raise e -> e <> unsupported_object_type.
Proof.
  unfold core_key_wrapping_data.
  destruct w as [d |]; [| discriminate].
  destruct (bool_decide (d = ∅)); [discriminate |].
  unfold Core.KeyWrappingData_init.
  destruct (bool_decide _); [| intros [= <-]; discriminate].
  assert (Hinfo : forall v e',
             Core.key_information_arg v = raise e' ->
             e' <> unsupported_object_type).
  { intros v e'. unfold Core.key_information_arg.
    destruct v; try discriminate; try (intros [= <-]; discriminate).
    destruct (bool_decide (d0 = ∅)); [discriminate |].
    unfold Core.KeyInformation_init.
    destruct (bool_decide _); [| intros [= <-]; discriminate].
    destruct (Core.kwarg d0 "cryptographic_parameters");
      try (intros [= <-]; discriminate).
    unfold Core.CryptographicParameters_init.
    destruct (bool_decide _); [discriminate | intros [= <-]; discriminate]. }
  destruct (Core.key_information_arg (Core.kwarg d "encryption_key_information"))
    as [e1 | i1] eqn:H1.
  { intros [= <-]. exact (Hinfo _ _ H1). }
  destruct (Core.key_information_arg
              (Core.kwarg d "mac_signature_key_information"))
    as [e2 | i2] eqn:H2.
  { intros [= <-]. exact (Hinfo _ _ H2). }
  discriminate.
Qed.

Lemma convert_recognized_error (o : obj) e :
  recognized o = true -> convert o = raise e -> e <> unsupported_object_type.
Proof.
  intros Hrec. destruct o as [p | c | v | kb]; try discriminate.
  - destruct p as [k | k | k | c | s | o | s]; simpl; try discriminate.
    1-3: unfold _build_core_key;
      destruct (core_key_wrapping_data (Pie.Key.key_wrapping_data k))
        as [e' | w] eqn:Hw; [| discriminate];
      intros [= <-]; exact (core_key_wrapping_data_error _ _ Hw).
    unfold _build_core_split_key.
    destruct (core_key_wrapping_data (Pie.SplitKey.key_wrapping_data s))
      as [e' | w] eqn:Hw; [| discriminate].
    intros [= <-]. exact (core_key_wrapping_data_error _ _ Hw).
  - destruct c as [k | k | k | c | s | o | s]; simpl; try discriminate.
    1-3: unfold _build_pie_key;
      (destruct (Core.KeyBlock.cryptographic_algorithm k);
         [| intros [= <-]; discriminate]);
      (destruct (Core.KeyBlock.cryptographic_length k);
         [| intros [= <-]; discriminate]);
      simpl; try discriminate.
    + destruct (decide _); [intros [= <-]; discriminate | discriminate].
    + unfold _build_pie_certificate.
      destruct (decide _); [discriminate | intros [= <-]; discriminate].
    + unfold _build_pie_split_key.
      (destruct (Core.KeyBlock.cryptographic_algorithm _);
         [| intros [= <-]; discriminate]).
      (destruct (Core.KeyBlock.cryptographic_length _);
         [| intros [= <-]; discriminate]).
      discriminate.
Qed.

(** C2: each of the seven variants of either universe is handed to the
    builder of that variant and direction; any other input makes [convert]
    raise the unsupported-object-type error, which no recognized variant
    ever raises. *)
Theorem convert_dispatch :
  (forall k, convert (PieObj (Pie.SymmetricKey k))
             = bind (_build_core_key k Core.SymmetricKey)
                 (fun r => ret (CoreObj r)))
  /\ (forall kb, convert (CoreObj (Core.SymmetricKey kb))
                 = bind (_build_pie_key kb Pie.SymmetricKey_cls)
                     (fun r => ret (PieObj r)))
  /\ (forall k, convert (PieObj (Pie.PublicKey k))
                = bind (_build_core_key k Core.PublicKey)
                    (fun r => ret (CoreObj r)))
  /\ (forall kb, convert (CoreObj (Core.PublicKey kb))
                 = bind (_build_pie_key kb Pie.PublicKey_cls)
                     (fun r => ret (PieObj r)))
  /\ (forall k, convert (PieObj (Pie.PrivateKey k))
                = bind (_build_core_key k Core.PrivateKey)
                    (fun r => ret (CoreObj r)))
  /\ (forall kb, convert (CoreObj (Core.PrivateKey kb))
                 = bind (_build_pie_key kb Pie.PrivateKey_cls)
                     (fun r => ret (PieObj r)))
  /\ (forall c, convert (PieObj (Pie.Certificate_ c))
                = ret (CoreObj (Core.Certificate_ (_build_core_certificate c))))
  /\ (forall c, convert (CoreObj (Core.Certificate_ c))
                = bind (_build_pie_certificate c)
                    (fun r => ret (PieObj (Pie.Certificate_ r))))
  /\ (forall s, convert (PieObj (Pie.SecretData_ s))
                = ret (CoreObj (Core.SecretData_ (_build_core_secret_data s))))
  /\ (forall s, convert (CoreObj (Core.SecretData_ s))
                = ret (PieObj (Pie.SecretData_ (_build_pie_secret_data s))))
  /\ (forall o, convert (PieObj (Pie.OpaqueObject_ o))
                = ret (CoreObj
                         (Core.OpaqueObject_ (_build_core_opaque_object o))))
  /\ (forall o, convert (CoreObj (Core.OpaqueObject_ o))
                = ret (PieObj
                         (Pie.OpaqueObject_ (_build_pie_opaque_object o))))
  /\ (forall s, convert (PieObj (Pie.SplitKey_ s))
                = bind (_build_core_split_key s)
                    (fun r => ret (CoreObj (Core.SplitKey_ r))))
  /\ (forall s, convert (CoreObj (Core.SplitKey_ s))
                = bind (_build_pie_split_key s)
                    (fun r => ret (PieObj (Pie.SplitKey_ r))))
  /\ (forall o, recognized o = false ->
                convert o = raise unsupported_object_type)
  /\ (forall o, recognized o = true ->
                convert o <> raise unsupported_object_type).
Proof.
  repeat (split; [reflexivity |]).
  split.
  - intros [p | c | v | kb]; try discriminate; reflexivity.
  - intros o Hrec Hconv.
    exact (convert_recognized_error o _ Hrec Hconv eq_refl).
Qed.

Lemma convert_dispatch_witness :
  convert (Value (PyStr "invalid")) = raise unsupported_object_type
  /\ convert (PieObj (Pie.SecretData_ (Pie.SecretData.Build [x01] PASSWORD)))
     <> raise unsupported_object_type.
Proof.
  destruct convert_dispatch as (_ & _ & _ & _ & _ & _ & _ & _ & _ & _ & _ & _
                                & _ & _ & Hother & Hrec).
  split; [apply Hother | apply Hrec]; reflexivity.
Defined.

(** ** The construction contract of certificates *)

Lemma as_masks_masks_arg (masks : list CryptographicUsageMask) :
  Pie.as_masks (masks_arg masks) = Some masks.
Proof.
  unfold masks_arg. simpl. apply mapM_Some.
  induction masks as [| m ms IH]; constructor; [reflexivity | exact IH].
Qed.

Lemma as_CryptographicUsageMask_Some (v : pyval) m :
  Pie.as_CryptographicUsageMask v = Some m ->
  v = PyEnum (ECryptographicUsageMask m).
Proof.
  destruct v as [| | | | | [] | |]; try discriminate.
  simpl. congruence.
Qed.

Lemma mapM_as_CryptographicUsageMask (l : list pyval) masks :
  mapM Pie.as_CryptographicUsageMask l = Some masks ->
  PyList l = masks_arg masks.
Proof.
  intros E. apply mapM_Some in E. unfold masks_arg. f_equal.
  induction E as [| x m l' ms' Hx _ IH]; [reflexivity |].
  simpl. rewrite <- IH, (as_CryptographicUsageMask_Some _ _ Hx). reflexivity.
Qed.

Lemma as_masks_None (v : pyval) :
  invalid_masks v -> Pie.as_masks v = None.
Proof.
  intros [Hnone Hlist].
  destruct (Pie.as_masks v) as [ms |] eqn:E; [exfalso | reflexivity].
  destruct v; try discriminate; [contradiction |].
  exact (Hlist ms (mapM_as_CryptographicUsageMask _ _ E)).
Qed.

Lemma Certificate_init_concrete certificate_type value masks name :
  Pie.Certificate_init Pie.Concrete
    (PyEnum (ECertificateType certificate_type)) (PyBytes value)
    (masks_arg masks) (Some (PyStr name))
  = ret (Pie.Certificate.Build certificate_type value masks [name]).
Proof.
  unfold Pie.Certificate_init.
  simpl Pie.as_CertificateType. simpl Pie.as_bytes.
  rewrite as_masks_masks_arg. reflexivity.
Qed.

(** The scenarios of [test_certificate.py]. *)
Example test_init_with_args :
  Pie.Certificate_init Pie.Concrete (PyEnum (ECertificateType X_509))
    (PyBytes [x30; x82; x03; x12])
    (PyList [PyEnum (ECryptographicUsageMask ENCRYPT);
             PyEnum (ECryptographicUsageMask VERIFY)])
    (Some (PyStr "Test Certificate"))
  = ret (Pie.Certificate.Build X_509 [x30; x82; x03; x12]
           [ENCRYPT; VERIFY] ["Test Certificate"]).
Proof. reflexivity. Qed.

Example test_validate_on_invalid_certificate_type :
  Pie.Certificate_init Pie.Concrete (PyStr "invalid")
    (PyBytes [x30; x82; x03; x12]) PyNone None
  = raise (TypeError "certificate_type must be a CertificateType enumeration").
Proof. reflexivity. Qed.

Example test_validate_on_invalid_value :
  Pie.Certificate_init Pie.Concrete (PyEnum (ECertificateType X_509))
    (PyInt 0) PyNone None
  = raise (TypeError "certificate value must be bytes").
Proof. reflexivity. Qed.

Example test_validate_on_invalid_masks :
  Pie.Certificate_init Pie.Concrete (PyEnum (ECertificateType X_509))
    (PyBytes [x30; x82; x03; x12]) (PyStr "invalid") None
  = raise (TypeError
             "certificate mask must be a CryptographicUsageMask enumeration").
Proof. reflexivity. Qed.

Example test_validate_on_invalid_name :
  Pie.Certificate_init Pie.Concrete (PyEnum (ECertificateType X_509))
    (PyBytes [x30; x82; x03; x12]) PyNone (Some (PyInt 0))
  = raise (TypeError "certificate name must be a string").
Proof. reflexivity. Qed.

(** C8: building a concrete certificate raises a [TypeError] when the
    certificate type is not a certificate-type member, when the value is not
    a byte string, when masks are given that are not a list of usage-mask
    members, or when a name is given that is not a string; with a
    certificate type and a value alone it succeeds, keeps both, and has no
    usage masks and the single name "Certificate". *)
Theorem certificate_construction_validates :
  (forall certificate_type value masks name,
      invalid_certificate_type certificate_type
      \/ invalid_value value
      \/ invalid_masks masks
      \/ invalid_name name ->
      exists msg,
        Pie.Certificate_init Pie.Concrete certificate_type value masks name
        = raise (TypeError msg))
  /\ (forall certificate_type value,
        exists c,
          Pie.Certificate_init Pie.Concrete
            (PyEnum (ECertificateType certificate_type)) (PyBytes value)
            PyNone None
          = ret c
          /\ Pie.Certificate.certificate_type c = certificate_type
          /\ Pie.Certificate.value c = value
          /\ Pie.Certificate.cryptographic_usage_masks c = []
          /\ Pie.Certificate.names c = ["Certificate"])
  /\ (forall certificate_type value masks name,
        Pie.Certificate_init Pie.Concrete
          (PyEnum (ECertificateType certificate_type)) (PyBytes value)
          (masks_arg masks) (Some (PyStr name))
        = ret (Pie.Certificate.Build certificate_type value masks [name])).
Proof.
  split; [| split].
  - intros t v masks name H. unfold Pie.Certificate_init.
    destruct (Pie.as_CertificateType t) as [c |] eqn:Et; [| eauto].
    destruct (Pie.as_bytes v) as [b |] eqn:Ev; [| eauto].
    destruct (Pie.as_masks masks) as [ms |] eqn:Em; [| eauto].
    destruct (Pie.as_name name) as [n |] eqn:En; [| eauto].
    exfalso. destruct H as [H | [H | [H | H]]].
    + destruct t as [| | | | | [] | |]; try discriminate. exact (H c0 eq_refl).
    + destruct v; try discriminate. exact (H b0 eq_refl).
    + rewrite (as_masks_None _ H) in Em. discriminate.
    + destruct H as (x & -> & Hx). simpl in En.
      destruct x; try discriminate. exact (Hx s eq_refl).
  - intros t v. eexists. repeat split; reflexivity.
  - apply Certificate_init_concrete.
Qed.

Lemma certificate_construction_validates_witness :
  exists msg,
    Pie.Certificate_init Pie.Concrete (PyEnum (ECertificateType X_509))
      (PyBytes [x30; x82]) (PyList [PyStr "invalid"]) None
    = raise (TypeError msg).
Proof.
  apply (proj1 certificate_construction_validates).
  right. right. left. split; [discriminate |].
  intros [| m ms]; discriminate.
Defined.

(** C9: instantiating the abstract [Certificate] raises a [TypeError]
    whatever the arguments, also those a concrete specialization is built
    from; a concrete certificate, once built, has the certificate object
    type. *)
Theorem abstract_certificate_not_instantiable :
  (forall certificate_type value masks name,
      exists msg,
        Pie.Certificate_init Pie.Abstract certificate_type value masks name
        = raise (TypeError msg))
  /\ (forall certificate_type value masks name,
        exists c msg,
          Pie.Certificate_init Pie.Concrete
            (PyEnum (ECertificateType certificate_type)) (PyBytes value)
            (masks_arg masks) (Some (PyStr name))
          = ret c
          /\ Pie.Certificate_init Pie.Abstract
               (PyEnum (ECertificateType certificate_type)) (PyBytes value)
               (masks_arg masks) (Some (PyStr name))
             = raise (TypeError msg))
  /\ (forall certificate_type value masks name c,
        Pie.Certificate_init Pie.Concrete certificate_type value masks name
        = ret c ->
        Pie.object_type c = CERTIFICATE).
Proof.
  split; [| split].
  - intros. eexists. reflexivity.
  - intros t v masks name. do 2 eexists. split; [| reflexivity].
    apply Certificate_init_concrete.
  - intros. reflexivity.
Qed.

Lemma abstract_certificate_not_instantiable_witness :
  Pie.object_type (Pie.Certificate.Build X_509 [x30; x82] [] ["Certificate"])
  = CERTIFICATE.
Proof.
  apply (proj2 (proj2 abstract_certificate_not_instantiable)
           (PyEnum (ECertificateType X_509)) (PyBytes [x30; x82]) PyNone None).
  reflexivity.
Defined.

(** ** Round trips *)

Lemma dict_of_kwargs (m : gmap string pyval) (names : list string) :
  dom m = list_to_set names ->
  dict ((fun k => (k, Core.kwarg m k)) <$> names) = m.
Proof.
  intros Hdom. unfold dict. apply map_eq. intros i.
  destruct (m !! i) as [v |] eqn:E.
  - assert (Hi : i ∈ names).
    { apply (elem_of_list_to_set (C := gset string)). rewrite <- Hdom.
      apply elem_of_dom. eauto. }
    apply elem_of_list_to_map_1'.
    + intros y Hy. apply list_elem_of_fmap in Hy as (k & [= -> ->] & _).
      unfold Core.kwarg. rewrite E. reflexivity.
    + apply list_elem_of_fmap. exists i. split; [| exact Hi].
      unfold Core.kwarg. rewrite E. reflexivity.
  - apply not_elem_of_list_to_map_1. rewrite <- list_fmap_compose.
    intros Hi. apply list_elem_of_fmap in Hi as (k & -> & Hk). simpl in E.
    apply (elem_of_list_to_set (C := gset string)) in Hk.
    rewrite <- Hdom in Hk. apply elem_of_dom in Hk as [v Hv]. congruence.
Qed.

Lemma dom_build_cryptographic_parameters v :
  dom (_build_cryptographic_parameters v) = Core.CryptographicParameters_names.
Proof.
  unfold _build_cryptographic_parameters, dict,
    Core.CryptographicParameters_names.
  rewrite dom_list_to_map_L. simpl. set_solver.
Qed.

Lemma CryptographicParameters_init_build (v : Core.CryptographicParameters.t) :
  Core.CryptographicParameters_init (_build_cryptographic_parameters v) = ret v.
Proof.
  unfold Core.CryptographicParameters_init.
  rewrite bool_decide_eq_true_2
    by (rewrite dom_build_cryptographic_parameters; reflexivity).
  destruct v. reflexivity.
Qed.

Lemma build_CryptographicParameters_init (p : gmap string pyval) :
  wf_parameters p ->
  exists v,
    Core.CryptographicParameters_init p = ret v
    /\ _build_cryptographic_parameters v = p.
Proof.
  intros Hp. unfold Core.CryptographicParameters_init.
  rewrite bool_decide_eq_true_2 by (rewrite Hp; reflexivity).
  eexists. split; [reflexivity |].
  unfold _build_cryptographic_parameters. simpl.
  apply (dict_of_kwargs p
           [ "block_cipher_mode"; "padding_method"; "hashing_algorithm";
             "key_role_type"; "digital_signature_algorithm";
             "cryptographic_algorithm"; "random_iv"; "iv_length";
             "tag_length"; "fixed_field_length"; "invocation_field_length";
             "counter_length"; "initial_counter_value" ]).
  rewrite Hp. unfold Core.CryptographicParameters_names. simpl. set_solver.
Qed.

Lemma key_information_arg_mapping (info : option Core.KeyInformation.t) :
  Core.key_information_arg (PyDict (key_information_mapping info)) = ret info.
Proof.
  destruct info as [[uid params] |]; [| reflexivity].
  unfold Core.key_information_arg, key_information_mapping.
  rewrite bool_decide_eq_false_2 by apply insert_non_empty.
  unfold Core.KeyInformation_init.
  rewrite bool_decide_eq_true_2
    by (rewrite dom_insert_L, dom_singleton_L;
        unfold Core.KeyInformation_names; set_solver).
  simpl Core.KeyInformation.cryptographic_parameters.
  simpl Core.KeyInformation.unique_identifier.
  change (Core.kwarg _ "cryptographic_parameters")
    with (PyDict (_build_cryptographic_parameters params)).
  cbv beta iota. rewrite CryptographicParameters_init_build. reflexivity.
Qed.

Lemma key_information_mapping_arg (e : pyval) :
  wf_key_information e ->
  exists info,
    Core.key_information_arg e = ret info
    /\ PyDict (key_information_mapping info) = e.
Proof.
  intros (m & -> & [-> | (Hdom & p & Hp & Hwf)]).
  - exists None. split; reflexivity.
  - assert (Hne : m <> ∅).
    { intros ->. rewrite lookup_empty in Hp. discriminate. }
    unfold Core.key_information_arg.
    rewrite bool_decide_eq_false_2 by exact Hne.
    unfold Core.KeyInformation_init.
    rewrite bool_decide_eq_true_2 by (rewrite Hdom; reflexivity).
    unfold Core.kwarg at 1. rewrite Hp. simpl.
    destruct (build_CryptographicParameters_init p Hwf) as (v & -> & Hv).
    simpl. eexists. split; [reflexivity |].
    f_equal. simpl. rewrite Hv.
    transitivity
      (dict ((fun k => (k, Core.kwarg m k))
               <$> ["unique_identifier"; "cryptographic_parameters"])).
    + unfold dict. simpl.
      replace (Core.kwarg m "cryptographic_parameters") with (PyDict p)
        by (unfold Core.kwarg; rewrite Hp; reflexivity).
      reflexivity.
    + apply dict_of_kwargs. rewrite Hdom.
      unfold Core.KeyInformation_names. simpl. set_solver.
Qed.

Lemma dom_build_key_wrapping_data w d :
  _build_key_wrapping_data (Some w) = Some d ->
  dom d = Core.KeyWrappingData_names.
Proof.
  rewrite build_key_wrapping_data_Some. intros [= <-].
  unfold Core.KeyWrappingData_names.
  rewrite !dom_insert_L, dom_empty_L. set_solver.
Qed.

Lemma core_key_wrapping_data_build (w : option Core.KeyWrappingData.t) :
  core_key_wrapping_data (_build_key_wrapping_data w) = ret w.
Proof.
  destruct w as [w |]; [| reflexivity].
  pose proof (dom_build_key_wrapping_data w) as Hdom.
  rewrite build_key_wrapping_data_Some in *.
  specialize (Hdom _ eq_refl).
  unfold core_key_wrapping_data.
  rewrite bool_decide_eq_false_2.
  2:{ intros E. rewrite E, dom_empty_L in Hdom.
      unfold Core.KeyWrappingData_names in Hdom. set_solver. }
  unfold Core.KeyWrappingData_init.
  rewrite bool_decide_eq_true_2 by (rewrite Hdom; reflexivity).
  change (Core.kwarg _ "encryption_key_information")
    with (PyDict (key_information_mapping
                    (Core.KeyWrappingData.encryption_key_information w))).
  change (Core.kwarg _ "mac_signature_key_information")
    with (PyDict (key_information_mapping
                    (Core.KeyWrappingData.mac_signature_key_information w))).
  rewrite !key_information_arg_mapping.
  destruct w. reflexivity.
Qed.

Lemma build_core_key_wrapping_data (w : option (gmap string pyval)) :
  wf_wrapping w ->
  exists w',
    core_key_wrapping_data w = ret w' /\ _build_key_wrapping_data w' = w.
Proof.
  destruct w as [d |]; [| exists None; split; reflexivity].
  intros (Hdom & (e & He & Hwe) & (a & Ha & Hwa)).
  assert (Hne : d <> ∅).
  { intros ->. rewrite lookup_empty in He. discriminate. }
  unfold core_key_wrapping_data.
  rewrite bool_decide_eq_false_2 by exact Hne.
  unfold Core.KeyWrappingData_init.
  rewrite bool_decide_eq_true_2 by (rewrite Hdom; reflexivity).
  unfold Core.kwarg at 1. rewrite He. simpl.
  destruct (key_information_mapping_arg e Hwe) as (ie & -> & Hie).
  unfold Core.kwarg at 1. rewrite Ha. simpl.
  destruct (key_information_mapping_arg a Hwa) as (ia & -> & Hia).
  simpl. eexists. split; [reflexivity |].
  rewrite build_key_wrapping_data_Some. f_equal. simpl.
  rewrite Hie, Hia.
  transitivity
    (dict ((fun k => (k, Core.kwarg d k))
             <$> [ "wrapping_method"; "encryption_key_information";
                   "mac_signature_key_information"; "mac_signature";
                   "iv_counter_nonce"; "encoding_option" ])).
  - unfold dict. simpl.
    replace (Core.kwarg d "encryption_key_information") with e
      by (unfold Core.kwarg; rewrite He; reflexivity).
    replace (Core.kwarg d "mac_signature_key_information") with a
      by (unfold Core.kwarg; rewrite Ha; reflexivity).
    reflexivity.
  - apply dict_of_kwargs. rewrite Hdom.
    unfold Core.KeyWrappingData_names. simpl. set_solver.
Qed.

Lemma build_core_key_wf (k : Pie.Key.t) cls :
  wf_wrapping (Pie.Key.key_wrapping_data k) ->
  exists w,
    _build_core_key k cls
    = ret (cls (Core.KeyBlock.Build
                  (Core.Primitive.Build (Pie.Key.key_format_type k))
                  None
                  (Core.KeyValue.Build (Core.Primitive.Build (Pie.Key.value k)))
                  (Some (Core.Primitive.Build
                           (Pie.Key.cryptographic_algorithm k)))
                  (Some (Core.Primitive.Build (Pie.Key.cryptographic_length k)))
                  w))
    /\ _build_key_wrapping_data w = Pie.Key.key_wrapping_data k.
Proof.
  intros Hwf. unfold _build_core_key.
  destruct (build_core_key_wrapping_data _ Hwf) as (w & -> & Hw).
  exists w. split; [reflexivity | exact Hw].
Qed.

Lemma convert_twice_pie (o : Pie.object) :
  pie_well_formed o -> convert_twice (PieObj o) = ret (PieObj (carried o)).
Proof.
  unfold convert_twice.
  destruct o as [k | k | k | c | s | o | s]; simpl pie_well_formed.
  - intros [Hfmt Hwf]. simpl convert.
    destruct (build_core_key_wf k Core.SymmetricKey Hwf) as (w & -> & Hw).
    simpl. unfold _build_pie_key. simpl. rewrite Hw.
    destruct k as [alg len v fmt kwd]. simpl in *. subst fmt.
    destruct (decide _) as [Hne | _]; [contradiction | reflexivity].
  - intros Hwf. simpl convert.
    destruct (build_core_key_wf k Core.PublicKey Hwf) as (w & -> & Hw).
    simpl. unfold _build_pie_key. simpl. rewrite Hw.
    destruct k. reflexivity.
  - intros Hwf. simpl convert.
    destruct (build_core_key_wf k Core.PrivateKey Hwf) as (w & -> & Hw).
    simpl. unfold _build_pie_key. simpl. rewrite Hw.
    destruct k. reflexivity.
  - intros Htype. destruct c as [t v ms ns]. simpl in Htype. subst t.
    reflexivity.
  - intros _. destruct s. reflexivity.
  - intros _. destruct o. reflexivity.
  - intros Hwf. simpl convert. unfold _build_core_split_key.
    destruct (build_core_key_wrapping_data _ Hwf) as (w & -> & Hw).
    simpl. unfold _build_pie_split_key. simpl. rewrite Hw.
    destruct s. reflexivity.
Qed.





(** * Further properties of the factory *)

(** ** The builders lose nothing *)

(** X1: [_build_cryptographic_parameters] is injective: two parameter objects
    with the same mapping are the same object, field for field. *)
Theorem build_cryptographic_parameters_injective :
  forall a b : Core.CryptographicParameters.t,
    _build_cryptographic_parameters a = _build_cryptographic_parameters b
    <-> a = b.
Proof.
  intros a b. split; [| intros ->; reflexivity].
  intros H.
  pose proof (CryptographicParameters_init_build a) as Ha.
  rewrite H, CryptographicParameters_init_build in Ha.
  injection Ha as ->. reflexivity.
Qed.

(** X2: [_build_key_wrapping_data] is injective: absent and present sources
    are told apart, and two wrapping-data objects with the same mapping agree
    on every field, key-information blocks and their parameters included. *)
Theorem build_key_wrapping_data_injective :
  forall a b : option Core.KeyWrappingData.t,
    _build_key_wrapping_data a = _build_key_wrapping_data b <-> a = b.
Proof.
  intros a b. split; [| intros ->; reflexivity].
  intros H.
  pose proof (core_key_wrapping_data_build a) as Ha.
  rewrite H, core_key_wrapping_data_build in Ha.
  injection Ha as ->. reflexivity.
Qed.

(** ** What a conversion returns *)

(** X3: whenever [convert] returns, the result is the same variant in the
    opposite universe; in particular it is again an object [convert]
    recognizes. *)
Theorem convert_flips_universe :
  forall o r : obj,
    convert o = ret r ->
    exists u v,
      tag_of o = Some (u, v)
      /\ tag_of r = Some (opposite u, v)
      /\ recognized r = true.
Proof.
  intros o r.
  destruct o as [[k | k | k | c | s | x | s] | [kb | kb | kb | c | s | x | s]
                 | v | kb]; simpl convert; try discriminate.
  1-3: unfold _build_core_key;
    destruct (core_key_wrapping_data _); [discriminate |];
    intros [= <-]; do 2 eexists; repeat split; reflexivity.
  1-3: intros [= <-]; do 2 eexists; repeat split; reflexivity.
  - unfold _build_core_split_key.
    destruct (core_key_wrapping_data _); [discriminate |].
    intros [= <-]. do 2 eexists. repeat split; reflexivity.
  - unfold _build_pie_key.
    destruct (Core.KeyBlock.cryptographic_algorithm kb); [| discriminate].
    destruct (Core.KeyBlock.cryptographic_length kb); [| discriminate].
    simpl. destruct (decide _); [discriminate |].
    intros [= <-]. do 2 eexists. repeat split; reflexivity.
  - unfold _build_pie_key.
    destruct (Core.KeyBlock.cryptographic_algorithm kb); [| discriminate].
    destruct (Core.KeyBlock.cryptographic_length kb); [| discriminate].
    intros [= <-]. do 2 eexists. repeat split; reflexivity.
  - unfold _build_pie_key.
    destruct (Core.KeyBlock.cryptographic_algorithm kb); [| discriminate].
    destruct (Core.KeyBlock.cryptographic_length kb); [| discriminate].
    intros [= <-]. do 2 eexists. repeat split; reflexivity.
  - unfold _build_pie_certificate. destruct (decide _); [| discriminate].
    intros [= <-]. do 2 eexists. repeat split; reflexivity.
  - intros [= <-]. do 2 eexists. repeat split; reflexivity.
  - intros [= <-]. do 2 eexists. repeat split; reflexivity.
  - unfold _build_pie_split_key.
    destruct (Core.KeyBlock.cryptographic_algorithm _); [| discriminate].
    destruct (Core.KeyBlock.cryptographic_length _); [| discriminate].
    intros [= <-]. do 2 eexists. repeat split; reflexivity.
Qed.

Lemma convert_flips_universe_witness :
  exists u v,
    tag_of (PieObj (Pie.SymmetricKey sample_wrapped_key)) = Some (u, v)
    /\ tag_of (CoreObj (Core.SymmetricKey
                  (Core.KeyBlock.Build (Core.Primitive.Build RAW) None
                     (Core.KeyValue.Build
                        (Core.Primitive.Build (Pie.Key.value sample_wrapped_key)))
                     (Some (Core.Primitive.Build AES))
                     (Some (Core.Primitive.Build 128))
                     (Some (Core.KeyWrappingData.Build
                        (PyEnum (EOther "WrappingMethod" 1))
                        (Some (Core.KeyInformation.Build
                           (PyStr "100182d5-72b8")
                           (Core.CryptographicParameters.Build
                              (PyEnum (EOther "BlockCipherMode" 13))
                              PyNone PyNone PyNone PyNone PyNone
                              (PyBool false) (PyInt 96)
                              PyNone PyNone PyNone PyNone PyNone)))
                        None PyNone PyNone
                        (PyEnum (EOther "EncodingOption" 1)))))))
       = Some (opposite u, v)
    /\ recognized (CoreObj (Core.SymmetricKey
                  (Core.KeyBlock.Build (Core.Primitive.Build RAW) None
                     (Core.KeyValue.Build
                        (Core.Primitive.Build (Pie.Key.value sample_wrapped_key)))
                     (Some (Core.Primitive.Build AES))
                     (Some (Core.Primitive.Build 128))
                     (Some (Core.KeyWrappingData.Build
                        (PyEnum (EOther "WrappingMethod" 1))
                        (Some (Core.KeyInformation.Build
                           (PyStr "100182d5-72b8")
                           (Core.CryptographicParameters.Build
                              (PyEnum (EOther "BlockCipherMode" 13))
                              PyNone PyNone PyNone PyNone PyNone
                              (PyBool false) (PyInt 96)
                              PyNone PyNone PyNone PyNone PyNone)))
                        None PyNone PyNone
                        (PyEnum (EOther "EncodingOption" 1)))))))
       = true.
Proof.
  apply (convert_flips_universe
           (PieObj (Pie.SymmetricKey sample_wrapped_key))).
  vm_compute. reflexivity.
Defined.

(** ** When converting a core object fails *)

Lemma convert_core_well_formed (o : Core.object) r :
  convert (CoreObj o) = ret r -> core_well_formed o.
Proof.
  destruct o as [kb | kb | kb | c | s | x | s]; simpl convert;
    simpl core_well_formed; try (intros _; exact I).
  - unfold _build_pie_key, implied_format_type, key_block_complete.
    destruct (Core.KeyBlock.cryptographic_algorithm kb); [| discriminate].
    destruct (Core.KeyBlock.cryptographic_length kb); [| discriminate].
    simpl. destruct (decide _) as [| Heq]; [discriminate |].
    intros _. split; [split; eauto |].
    f_equal. apply dec_stable. exact Heq.
  - unfold _build_pie_key, key_block_complete.
    destruct (Core.KeyBlock.cryptographic_algorithm kb); [| discriminate].
    destruct (Core.KeyBlock.cryptographic_length kb); [| discriminate].
    intros _. split; eauto.
  - unfold _build_pie_key, key_block_complete.
    destruct (Core.KeyBlock.cryptographic_algorithm kb); [| discriminate].
    destruct (Core.KeyBlock.cryptographic_length kb); [| discriminate].
    intros _. split; eauto.
  - unfold _build_pie_certificate.
    destruct (decide _) as [Heq |]; [| discriminate]. intros _. exact Heq.
  - unfold _build_pie_split_key, key_block_complete.
    destruct (Core.KeyBlock.cryptographic_algorithm _); [| discriminate].
    destruct (Core.KeyBlock.cryptographic_length _); [| discriminate].
    intros _. split; eauto.
Qed.

Lemma convert_twice_succeeds (o : obj) r :
  convert_twice o = ret r -> exists r1, convert o = ret r1 /\ convert r1 = ret r.
Proof.
  unfold convert_twice. destruct (convert o) as [e | r1]; [discriminate |].
  simpl. eauto.
Qed.

(** X4: converting a core object returns only when the object is well
    formed: the key block of a key or split key carries an algorithm and a
    length, a symmetric key declares the format type its Pie counterpart
    takes, a certificate is an X.509 certificate. *)
Theorem convert_core_returns_only_well_formed :
  forall (o : Core.object) (r : obj),
    convert (CoreObj o) = ret r -> core_well_formed o.
Proof.
  intros o r Hr. exact (convert_core_well_formed o r Hr).
Qed.

Lemma convert_core_returns_only_well_formed_witness :
  core_well_formed
    (Core.SymmetricKey
       (Core.KeyBlock.Build (Core.Primitive.Build RAW) None
          (Core.KeyValue.Build (Core.Primitive.Build [x66; xc4]))
          (Some (Core.Primitive.Build AES))
          (Some (Core.Primitive.Build 16)) None)).
Proof.
  apply (convert_core_returns_only_well_formed
           (Core.SymmetricKey
              (Core.KeyBlock.Build (Core.Primitive.Build RAW) None
                 (Core.KeyValue.Build (Core.Primitive.Build [x66; xc4]))
                 (Some (Core.Primitive.Build AES))
                 (Some (Core.Primitive.Build 16)) None))
           (PieObj (Pie.SymmetricKey
                      (Pie.Key.Build AES 16 [x66; xc4] RAW None)))).
  reflexivity.
Defined.

Lemma key_block_incomplete (kb : Core.KeyBlock.t) :
  ~ key_block_complete kb ->
  Core.KeyBlock.cryptographic_algorithm kb = None
  \/ (exists a, Core.KeyBlock.cryptographic_algorithm kb = Some a
                /\ Core.KeyBlock.cryptographic_length kb = None).
Proof.
  unfold key_block_complete. intros H.
  destruct (Core.KeyBlock.cryptographic_algorithm kb) as [a |]; [| auto].
  destruct (Core.KeyBlock.cryptographic_length kb) as [l |]; [| eauto].
  exfalso. apply H. split; eauto.
Qed.

(** X5: a core key or split key whose key block lacks the cryptographic
    algorithm or the cryptographic length makes [convert] raise the
    [AttributeError] of reading [.value] of [None], whatever its format type
    and its other fields: both attributes are read before anything is
    checked or built. *)
Theorem convert_core_incomplete_key_block :
  forall (o : Core.object) (kb : Core.KeyBlock.t),
    read_key_block o = Some kb ->
    ~ key_block_complete kb ->
    convert (CoreObj o) = raise none_has_no_value.
Proof.
  intros o kb Hkb Hinc.
  assert (Hpie : forall cls, _build_pie_key kb cls = raise none_has_no_value).
  { intros cls. unfold _build_pie_key.
    destruct (key_block_incomplete kb Hinc) as [-> | (a & -> & ->)];
      reflexivity. }
  destruct o as [k | k | k | c | s | x | s]; try discriminate;
    injection Hkb as <-; simpl convert.
  1-3: rewrite Hpie; reflexivity.
  unfold _build_pie_split_key.
  destruct (key_block_incomplete _ Hinc) as [-> | (a & -> & ->)];
    reflexivity.
Qed.

Lemma convert_core_incomplete_key_block_witness :
  convert (CoreObj (Core.PrivateKey
             (Core.KeyBlock.Build (Core.Primitive.Build PKCS_8) None
                (Core.KeyValue.Build (Core.Primitive.Build [x30; x82]))
                None (Some (Core.Primitive.Build 2048)) None)))
  = raise none_has_no_value.
Proof.
  apply (convert_core_incomplete_key_block
           (Core.PrivateKey
              (Core.KeyBlock.Build (Core.Primitive.Build PKCS_8) None
                 (Core.KeyValue.Build (Core.Primitive.Build [x30; x82]))
                 None (Some (Core.Primitive.Build 2048)) None))
           _ eq_refl).
  intros [[a Ha] _]. discriminate.
Defined.

(** ** What a double conversion returns *)

Lemma convert_twice_core_rebuilt (o : Core.object) :
  core_well_formed o ->
  convert_twice (CoreObj o) = ret (CoreObj (core_rebuilt o)).
Proof.
  unfold convert_twice.
  destruct o as [kb | kb | kb | c | s | x | s]; simpl core_well_formed.
  - intros [[[a Ha] [l Hl]] Hfmt]. unfold implied_format_type in Hfmt.
    rewrite Ha in Hfmt. injection Hfmt as Hfmt.
    simpl convert. rewrite (build_pie_key_present kb a l _ Ha Hl).
    cbv zeta. unfold Pie.SymmetricKey_init. simpl Pie.Key.key_format_type.
    rewrite Hfmt.
    destruct (decide _) as [Hne | _]; [contradiction |].
    simpl. unfold _build_core_key. simpl.
    rewrite core_key_wrapping_data_build. simpl.
    destruct kb as [[f] comp [[m]] alg len kwd]. simpl in *.
    destruct a, l. subst. reflexivity.
  - intros [[a Ha] [l Hl]].
    simpl convert. rewrite (build_pie_key_present kb a l _ Ha Hl).
    simpl. unfold _build_core_key. simpl.
    rewrite core_key_wrapping_data_build. simpl.
    destruct kb as [[f] comp [[m]] alg len kwd]. simpl in *.
    destruct a, l. subst. reflexivity.
  - intros [[a Ha] [l Hl]].
    simpl convert. rewrite (build_pie_key_present kb a l _ Ha Hl).
    simpl. unfold _build_core_key. simpl.
    rewrite core_key_wrapping_data_build. simpl.
    destruct kb as [[f] comp [[m]] alg len kwd]. simpl in *.
    destruct a, l. subst. reflexivity.
  - intros Htype. destruct c as [[t] [v]]. simpl in Htype. subst t.
    reflexivity.
  - intros _. destruct s as [[t] [f comp [[m]] alg len kwd]]. reflexivity.
  - intros _. destruct x as [[t] [v]]. reflexivity.
  - intros [[a Ha] [l Hl]]. simpl convert. unfold _build_pie_split_key.
    rewrite Ha, Hl. simpl. unfold _build_core_split_key. simpl.
    rewrite core_key_wrapping_data_build. simpl.
    destruct s as [p i t m pf [[f] comp [[v]] alg len kwd]]. simpl in *.
    destruct a, l. subst. reflexivity.
Qed.

Lemma convert_core_returns_pie (o : Core.object) r :
  convert (CoreObj o) = ret r -> exists p, r = PieObj p.
Proof.
  destruct o as [kb | kb | kb | c | s | x | s]; simpl convert.
  1-3: destruct (_build_pie_key _ _) as [e | p]; simpl;
    [discriminate | intros [= <-]; eauto].
  - destruct (_build_pie_certificate c) as [e | p]; simpl;
      [discriminate | intros [= <-]; eauto].
  - intros [= <-]. eauto.
  - intros [= <-]. eauto.
  - destruct (_build_pie_split_key s) as [e | p]; simpl;
      [discriminate | intros [= <-]; eauto].
Qed.

Lemma convert_pie_canonical (p : Pie.object) (c : Core.object) :
  convert (PieObj p) = ret (CoreObj c) -> core_canonical c.
Proof.
  destruct p as [k | k | k | x | s | x | s]; simpl convert.
  1-3: unfold _build_core_key;
    destruct (core_key_wrapping_data _) as [e | w]; [discriminate |];
    intros [= <-]; reflexivity.
  - intros [= <-]. exact I.
  - intros [= <-]. reflexivity.
  - intros [= <-]. exact I.
  - unfold _build_core_split_key.
    destruct (core_key_wrapping_data _) as [e | w]; [discriminate |].
    intros [= <-]. reflexivity.
Qed.

(** X6: every core object [convert] builds is in the factory's own form: the
    key block of a key or split key has no key compression type, the key
    block of secret data is the opaque block around the key value, without
    algorithm, length and wrapping data.  So a core object that is not of
    that form never comes back unchanged from a double conversion. *)
Theorem convert_builds_canonical_core_objects :
  (forall (p : Pie.object) (c : Core.object),
      convert (PieObj p) = ret (CoreObj c) -> core_canonical c)
  /\ (forall o : Core.object,
        convert_twice (CoreObj o) = ret (CoreObj o) -> core_canonical o).
Proof.
  split; [exact convert_pie_canonical |].
  intros o H.
  apply convert_twice_succeeds in H as (r1 & H1 & H2).
  apply convert_core_returns_pie in H1 as (p & ->).
  exact (convert_pie_canonical p o H2).
Qed.

Lemma convert_builds_canonical_core_objects_witness :
  core_canonical
    (Core.SecretData_
       (Core.SecretData.Build (Core.Primitive.Build PASSWORD)
          (Core.KeyBlock.Build (Core.Primitive.Build OPAQUE) None
             (Core.KeyValue.Build (Core.Primitive.Build [x70; x77]))
             None None None))).
Proof.
  apply (proj1 convert_builds_canonical_core_objects
           (Pie.SecretData_ (Pie.SecretData.Build [x70; x77] PASSWORD))).
  reflexivity.
Defined.



(** ** Which objects a conversion identifies *)

Lemma convert_carried (o : Pie.object) :
  convert (PieObj (carried o)) = convert (PieObj o).
Proof. destruct o; reflexivity. Qed.

Lemma convert_core_semantic (a b : Core.object) :
  core_semantic_eq a b -> convert (CoreObj a) = convert (CoreObj b).
Proof.
  assert (Hkey : forall x y cls,
             key_block_eq x y -> _build_pie_key x cls = _build_pie_key y cls).
  { intros [f1 c1 v1 a1 l1 w1] [f2 c2 v2 a2 l2 w2] cls H.
    unfold key_block_eq in H. simpl in H.
    destruct H as (-> & -> & -> & -> & ->). reflexivity. }
  destruct a as [x | x | x | x | x | x | x],
           b as [y | y | y | y | y | y | y];
    simpl core_semantic_eq; try contradiction; simpl convert.
  - intros H. rewrite (Hkey x y _ H). reflexivity.
  - intros H. rewrite (Hkey x y _ H). reflexivity.
  - intros H. rewrite (Hkey x y _ H). reflexivity.
  - intros ->. reflexivity.
  - destruct x as [t1 k1], y as [t2 k2]. simpl. intros [-> H].
    unfold _build_pie_secret_data. simpl. rewrite H. reflexivity.
  - intros ->. reflexivity.
  - destruct x as [p1 i1 t1 m1 f1 [kf1 kc1 kv1 ka1 kl1 kw1]],
             y as [p2 i2 t2 m2 f2 [kf2 kc2 kv2 ka2 kl2 kw2]].
    unfold key_block_eq. simpl.
    intros (-> & -> & -> & -> & -> & -> & -> & -> & -> & ->). reflexivity.
Qed.

Lemma core_rebuilt_semantic (a b : Core.object) :
  core_rebuilt a = core_rebuilt b -> core_semantic_eq a b.
Proof.
  destruct a as [x | x | x | x | x | x | x],
           b as [y | y | y | y | y | y | y];
    simpl; try discriminate; unfold key_block_eq;
    intros [=]; repeat split; assumption.
Qed.

(** X9: two well-formed core objects are converted to the same Pie object
    exactly when they are equal on their semantic fields: the conversion
    ignores the key compression type and, for secret data, everything of the
    key block but its key value, and tells apart everything else. *)
Theorem convert_core_identifies :
  forall a b : Core.object,
    core_well_formed a ->
    core_well_formed b ->
    (convert (CoreObj a) = convert (CoreObj b) <-> core_semantic_eq a b).
Proof.
  intros a b Ha Hb. split; [| apply convert_core_semantic].
  intros H. apply core_rebuilt_semantic.
  pose proof (convert_twice_core_rebuilt a Ha) as Ea.
  pose proof (convert_twice_core_rebuilt b Hb) as Eb.
  unfold convert_twice in Ea, Eb. rewrite H, Eb in Ea.
  injection Ea as Ea. symmetry. exact Ea.
Qed.

Lemma convert_core_identifies_witness :
  convert (CoreObj (Core.SplitKey_ sample_core_split_key))
  = convert (CoreObj (core_rebuilt (Core.SplitKey_ sample_core_split_key)))
  <-> core_semantic_eq (Core.SplitKey_ sample_core_split_key)
        (core_rebuilt (Core.SplitKey_ sample_core_split_key)).
Proof.
  apply (convert_core_identifies (Core.SplitKey_ sample_core_split_key)
           (core_rebuilt (Core.SplitKey_ sample_core_split_key))).
  - split; eexists; reflexivity.
  - split; eexists; reflexivity.
Defined.

(** X10: two well-formed Pie objects are converted to the same core object
    exactly when they are the same object up to the usage masks and names of
    a certificate: nothing else of a Pie object is lost in the conversion. *)
Theorem convert_pie_identifies :
  forall a b : Pie.object,
    pie_well_formed a ->
    pie_well_formed b ->
    (convert (PieObj a) = convert (PieObj b) <-> carried a = carried b).
Proof.
  intros a b Ha Hb. split.
  - intros H.
    pose proof (convert_twice_pie a Ha) as Ea.
    pose proof (convert_twice_pie b Hb) as Eb.
    unfold convert_twice in Ea, Eb. rewrite H, Eb in Ea.
    injection Ea as Ea. symmetry. exact Ea.
  - intros H. rewrite <- (convert_carried a), <- (convert_carried b), H.
    reflexivity.
Qed.

Lemma convert_pie_identifies_witness :
  convert (PieObj (Pie.Certificate_ sample_certificate))
  = convert (PieObj (Pie.Certificate_
               (Pie.Certificate.Build X_509 [x30; x82; x03; x12]
                  [] ["Certificate"])))
  <-> carried (Pie.Certificate_ sample_certificate)
      = carried (Pie.Certificate_
                   (Pie.Certificate.Build X_509 [x30; x82; x03; x12]
                      [] ["Certificate"])).
Proof.
  apply (convert_pie_identifies (Pie.Certificate_ sample_certificate)
           (Pie.Certificate_
              (Pie.Certificate.Build X_509 [x30; x82; x03; x12]
                 [] ["Certificate"]))).
  - reflexivity.
  - reflexivity.
Defined.
